(** * unity-mcp-advanced: the Unity bridge response normaliser and the
      interactive prompt tool

    A shallow embedding of [advanced-mcp/tools/unity.js]
    ([convertToMCPResponse], [convertLegacyResponse], [handleUnityRequest] and
    the [camera_screenshot] handler) and of the [wait_for_user] handler of the
    terminal tools module, followed by the properties that the specification
    states about them.

    The payloads are the values [axios] hands over after parsing a JSON body,
    so the embedding starts with the fragment of JavaScript that the two
    source files exercise on such values: property reads, truthiness, strict
    equality, [typeof], string conversion, [JSON.stringify] and the few
    [String.prototype] methods used on the dialog output. *)

From Stdlib Require Import String Ascii List ZArith Bool Lia DecimalString.
Import ListNotations.
Local Open Scope string_scope.

(** ** Characters that cannot be written inside a string literal *)

Definition chr (code : nat) : string := String (ascii_of_nat code) EmptyString.
(** U+000A, written [\n] in the sources. *)
Definition nl : string := chr 10.
(** The double quote. *)
Definition dq : string := chr 34.
(** The backslash. *)
Definition bs : string := chr 92.

(** * The JavaScript fragment *)

Module JS.

(** The [TypeError]s that the modelled code can raise. *)
Inductive nullish_kind := OfUndefined | OfNull.

Inductive js_error :=
| CannotReadProperty (base : nullish_kind) (prop : string)
    (* reading [prop] of [undefined] or [null] *)
| NotAFunction (callee : string)
    (* calling a value that is not callable *)
| NoPrimitiveValue.
    (* an object whose own [toString] is not callable is converted to a string *)

(** A computation returns a value or throws. *)
Inductive result (A : Type) :=
| Ok (a : A)
| Throw (e : js_error).
Arguments Ok {A} a.
Arguments Throw {A} e.

Definition bind {A B} (c : result A) (k : A -> result B) : result B :=
  match c with
  | Ok a => k a
  | Throw e => Throw e
  end.

Notation "x <- c ;; k" := (bind c (fun x => k))
  (at level 61, c at next level, right associativity).

(** [array.push(x)], on the list standing for the array. *)
Definition push {A} (array : list A) (x : A) : list A := (array ++ [x])%list.

(** [Array.prototype.map] with a callback that may throw: the elements are
    visited in order and the first exception ends the traversal. *)
Fixpoint map_result {A B} (f : A -> result B) (l : list A) : result (list B) :=
  match l with
  | [] => Ok []
  | x :: rest => y <- f x ;; ys <- map_result f rest ;; Ok (y :: ys)
  end.

(** What the model leaves to the engine: IEEE-754 numbers with the operations
    the code applies to them, and the wording of the engine's [TypeError]
    messages. *)
Class Engine := {
  num : Type;
  num_eqb : num -> num -> bool;       (* [a === b] on numbers *)
  num_truthy : num -> bool;           (* ToBoolean: neither zero nor NaN *)
  num_gt0 : num -> bool;              (* [a > 0] *)
  num_finite : num -> bool;           (* neither NaN nor an infinity *)
  num_to_string : num -> string;      (* Number::toString, radix 10 *)
  str_to_num : string -> num;         (* StringToNumber *)
  num_of_Z : Z -> num;                (* an integer literal of the source *)
  error_message : js_error -> string  (* the [message] of a [TypeError] *)
}.

Section Values.
Context {E : Engine}.

(** A JavaScript value as [JSON.parse] builds them, plus [undefined] (the
    result of reading a missing property). An object is the list of its own
    properties in enumeration order, with pairwise distinct keys. *)
#[warnings="-register-all"]
Inductive value :=
| VUndefined
| VNull
| VBool (b : bool)
| VNum (n : num)
| VStr (s : string)
| VArr (items : list value)
| VObj (props : list (string * value)).

(** ToBoolean. *)
Definition truthy (v : value) : bool :=
  match v with
  | VUndefined | VNull => false
  | VBool b => b
  | VNum n => num_truthy n
  | VStr s => negb (s =? "")
  | VArr _ | VObj _ => true
  end.

(** [a === b]. Two objects or arrays are equal only when they are the same
    reference, and the parts of a parsed payload are all distinct references. *)
Definition strict_eq (a b : value) : bool :=
  match a, b with
  | VUndefined, VUndefined => true
  | VNull, VNull => true
  | VBool x, VBool y => Bool.eqb x y
  | VNum x, VNum y => num_eqb x y
  | VStr x, VStr y => x =? y
  | _, _ => false
  end.

Definition nullish (v : value) : bool :=
  match v with
  | VUndefined | VNull => true
  | _ => false
  end.

(** [typeof v === 'object'], which holds of [null] too. *)
Definition typeof_object (v : value) : bool :=
  match v with
  | VNull | VArr _ | VObj _ => true
  | _ => false
  end.

(** [Array.isArray]. *)
Definition isArray (v : value) : bool :=
  match v with
  | VArr _ => true
  | _ => false
  end.

(** The own property [k] of an object. *)
Fixpoint own (k : string) (props : list (string * value)) : option value :=
  match props with
  | [] => None
  | (k', v) :: rest => if k' =? k then Some v else own k rest
  end.

(** The value of the property read [v.k] on a value that has properties, for
    the names the sources read this way ([messages], [type], [content],
    [text], [message], [data], [image], [errors], [status], [Level], [level],
    [Message], [position], ...): none of them is an index or a member of a
    prototype, so only an object holds one. [length], [map] and [toString]
    are modelled apart, below. *)
Definition field (v : value) (k : string) : value :=
  match v with
  | VObj props =>
      match own k props with
      | Some x => x
      | None => VUndefined
      end
  | _ => VUndefined
  end.

(** The property read [v.k]: a [TypeError] on [undefined] and [null]. Reads
    have no effect, so the model reads once what the source reads twice. *)
Definition get (v : value) (k : string) : result value :=
  match v with
  | VUndefined => Throw (CannotReadProperty OfUndefined k)
  | VNull => Throw (CannotReadProperty OfNull k)
  | _ => Ok (field v k)
  end.

(** [a || b], the right operand evaluated only when the left one is falsy. *)
Definition or_else (a : value) (b : result value) : result value :=
  if truthy a then Ok a else b.

(** ToString, as a template literal applies it. An array is joined with
    commas, its [undefined] and [null] elements rendered empty; a plain object
    gives ["[object Object]"] unless an own [toString] property (never
    callable in a parsed payload) hides [Object.prototype.toString], in which
    case the conversion throws. *)
Fixpoint to_string (v : value) : result string :=
  match v with
  | VUndefined => Ok "undefined"
  | VNull => Ok "null"
  | VBool b => Ok (if b then "true" else "false")
  | VNum n => Ok (num_to_string n)
  | VStr s => Ok s
  | VArr items =>
      (fix join (l : list value) : result string :=
         match l with
         | [] => Ok ""
         | x :: rest =>
             s <- (if nullish x then Ok "" else to_string x) ;;
             match rest with
             | [] => Ok s
             | _ :: _ => t <- join rest ;; Ok (s ++ "," ++ t)
             end
         end) items
  | VObj props =>
      match own "toString" props with
      | Some _ => Throw NoPrimitiveValue
      | None => Ok "[object Object]"
      end
  end.

(** [v.toString()] on a value that is not [typeof]-object. *)
Definition call_toString (v : value) : result string :=
  match v with
  | VUndefined => Throw (CannotReadProperty OfUndefined "toString")
  | _ => to_string v
  end.

(** [v > 0]: [v] is converted to a number (an array or object through its
    string conversion) and compared. *)
Definition gt_zero (v : value) : result bool :=
  match v with
  | VUndefined | VNull => Ok false
  | VBool b => Ok b
  | VNum n => Ok (num_gt0 n)
  | VStr s => Ok (num_gt0 (str_to_num s))
  | VArr _ | VObj _ => s <- to_string v ;; Ok (num_gt0 (str_to_num s))
  end.

(** [v.length > 0]. An array and a string have a [length] of their own; an
    object has the one its payload gave it, if any; a number or a boolean has
    none ([undefined > 0] is false). *)
Definition length_gt_zero (v : value) : result bool :=
  match v with
  | VUndefined => Throw (CannotReadProperty OfUndefined "length")
  | VNull => Throw (CannotReadProperty OfNull "length")
  | VArr items => Ok (match items with [] => false | _ :: _ => true end)
  | VStr s => Ok (negb (s =? ""))
  | VObj _ => l <- get v "length" ;; gt_zero l
  | VBool _ | VNum _ => Ok false
  end.

(** [v.map(f)], written [callee] in the source: only an array has a callable
    [map]. *)
Definition call_map {B} (callee : string) (v : value) (f : value -> result B)
  : result (list B) :=
  match v with
  | VArr items => map_result f items
  | VUndefined => Throw (CannotReadProperty OfUndefined "map")
  | VNull => Throw (CannotReadProperty OfNull "map")
  | _ => Throw (NotAFunction callee)
  end.

(** *** JSON.stringify *)

Definition hex_digit (n : nat) : string :=
  match n with
  | 0 => "0" | 1 => "1" | 2 => "2" | 3 => "3" | 4 => "4" | 5 => "5"
  | 6 => "6" | 7 => "7" | 8 => "8" | 9 => "9" | 10 => "a" | 11 => "b"
  | 12 => "c" | 13 => "d" | 14 => "e" | _ => "f"
  end.

(** One character of QuoteJSONString: a character below U+0020 is written
    with its short escape or as [\u00XX]; bytes of a multi-byte character pass
    unchanged. *)
Definition json_escape (c : ascii) : string :=
  let n := nat_of_ascii c in
  match n with
  | 8 => bs ++ "b"
  | 9 => bs ++ "t"
  | 10 => bs ++ "n"
  | 12 => bs ++ "f"
  | 13 => bs ++ "r"
  | 34 => bs ++ dq
  | 92 => bs ++ bs
  | _ => if Nat.ltb n 32
         then bs ++ "u00" ++ hex_digit (n / 16) ++ hex_digit (n mod 16)
         else String c EmptyString
  end.

Fixpoint json_escape_all (s : string) : string :=
  match s with
  | EmptyString => EmptyString
  | String c rest => json_escape c ++ json_escape_all rest
  end.

Definition json_quote (s : string) : string := dq ++ json_escape_all s ++ dq.

(** [JSON.stringify(v)]; [None] is the [undefined] it returns for
    [undefined]. In an array [undefined] is written [null], in an object a
    property holding it is left out. *)
Fixpoint stringify (v : value) : option string :=
  match v with
  | VUndefined => None
  | VNull => Some "null"
  | VBool b => Some (if b then "true" else "false")
  | VNum n => Some (if num_finite n then num_to_string n else "null")
  | VStr s => Some (json_quote s)
  | VArr items =>
      Some ("[" ++
            String.concat ","
              ((fix elements (l : list value) : list string :=
                  match l with
                  | [] => []
                  | x :: rest =>
                      match stringify x with
                      | Some s => s
                      | None => "null"
                      end :: elements rest
                  end) items)
            ++ "]")
  | VObj props =>
      Some ("{" ++
            String.concat ","
              ((fix members (l : list (string * value)) : list string :=
                  match l with
                  | [] => []
                  | (k, x) :: rest =>
                      match stringify x with
                      | Some s => (json_quote k ++ ":" ++ s) :: members rest
                      | None => members rest
                      end
                  end) props)
            ++ "}")
  end.

(** [`${JSON.stringify(v)}`]. *)
Definition stringify_text (v : value) : string :=
  match stringify v with
  | Some s => s
  | None => "undefined"
  end.

End Values.

(** *** String methods used on the output of the dialog *)

(** [s.includes(needle)]. *)
Fixpoint includes (s needle : string) : bool :=
  prefix needle s ||
  match s with
  | EmptyString => false
  | String _ rest => includes rest needle
  end.

(** [s.replace(/"/g, '\\"')]: a backslash before every double quote. *)
Fixpoint escape_quotes (s : string) : string :=
  match s with
  | EmptyString => EmptyString
  | String c rest =>
      if (c =? "034")%char then bs ++ dq ++ escape_quotes rest
      else String c (escape_quotes rest)
  end.

(** Strings hold UTF-8; U+2028 and U+2029 are the two line terminators
    outside ASCII. *)
Definition utf8 (a b c : nat) : string :=
  String (ascii_of_nat a) (String (ascii_of_nat b) (String (ascii_of_nat c) EmptyString)).

Definition at_line_terminator (s : string) : bool :=
  prefix (chr 10) s || prefix (chr 13) s ||
  prefix (utf8 226 128 168) s || prefix (utf8 226 128 169) s.

(** The longest run that [.+] can take from the start of [s]: up to the
    first line terminator. *)
Fixpoint line_of (s : string) : string :=
  match s with
  | EmptyString => EmptyString
  | String c rest => if at_line_terminator s then EmptyString else String c (line_of rest)
  end.

(** [s] without the prefix [p], when it starts with it. *)
Fixpoint strip_prefix (p s : string) : option string :=
  match p, s with
  | EmptyString, _ => Some s
  | String a p', String b s' => if (a =? b)%char then strip_prefix p' s' else None
  | String _ _, EmptyString => None
  end.

(** The first capture group of [s.match(re)] for [re = /<literal>(.+)/]: the
    leftmost place where the literal is followed by at least one character
    that is not a line terminator, then greedily to the end of that line. *)
Fixpoint match_literal_then_line (literal s : string) : option string :=
  let here :=
    match strip_prefix literal s with
    | Some after =>
        match line_of after with
        | EmptyString => None
        | captured => Some captured
        end
    | None => None
    end in
  match here with
  | Some captured => Some captured
  | None =>
      match s with
      | EmptyString => None
      | String _ rest => match_literal_then_line literal rest
      end
  end.

(** White space and line terminators of ECMAScript in UTF-8: one byte
    (TAB, LF, VT, FF, CR, SP), two bytes (U+00A0) or three (U+1680,
    U+2000..U+200A, U+2028, U+2029, U+202F, U+205F, U+3000, U+FEFF). *)
Definition space1 (a : nat) : bool :=
  (Nat.leb 9 a && Nat.leb a 13) || Nat.eqb a 32.

Definition space2 (a b : nat) : bool :=
  Nat.eqb a 194 && Nat.eqb b 160.

Definition space3 (a b c : nat) : bool :=
  (Nat.eqb a 225 && Nat.eqb b 154 && Nat.eqb c 128) ||
  (Nat.eqb a 226 && Nat.eqb b 128 &&
     ((Nat.leb 128 c && Nat.leb c 138) || Nat.eqb c 168 || Nat.eqb c 169 || Nat.eqb c 175)) ||
  (Nat.eqb a 226 && Nat.eqb b 129 && Nat.eqb c 159) ||
  (Nat.eqb a 227 && Nat.eqb b 128 && Nat.eqb c 128) ||
  (Nat.eqb a 239 && Nat.eqb b 187 && Nat.eqb c 191).

(** [trimStart] on the bytes of a string; [rev] says that the bytes come in
    reverse order (for [trimEnd]). *)
Fixpoint trim_bytes (rev : bool) (l : list nat) : list nat :=
  match l with
  | a :: r1 =>
      if space1 a then trim_bytes rev r1
      else
        match r1 with
        | b :: r2 =>
            if (if rev then space2 b a else space2 a b) then trim_bytes rev r2
            else
              match r2 with
              | c :: r3 =>
                  if (if rev then space3 c b a else space3 a b c)
                  then trim_bytes rev r3
                  else l
              | [] => l
              end
        | [] => l
        end
  | [] => []
  end.

(** [s.trim()]. *)
Definition trim (s : string) : string :=
  let bytes := map nat_of_ascii (list_ascii_of_string s) in
  let kept := List.rev (trim_bytes true (List.rev (trim_bytes false bytes))) in
  string_of_list_ascii (map ascii_of_nat kept).

End JS.

(** * advanced-mcp/tools/unity.js *)

Module Unity.
Import JS.

Section Normalizer.
Context {E : Engine}.

(** A content block of an MCP response: [{type: 'text', text}] or
    [{type: 'image', data, mimeType}]. The fields hold whatever value the
    payload carried. *)
Inductive block :=
| TextBlock (text : value)
| ImageBlock (data : value) (mimeType : string).

(** The object [{ content }] that the normaliser returns. *)
Record response := { content : list block }.

Definition UNITY_BASE_URL : string := "http://localhost:7777".

(** The body of the loop of [convertToMCPResponse] (lines 21-38); [content]
    is the array built so far. *)
Definition push_entry (content : list block) (msg : value) : result (list block) :=
  ty <- get msg "type" ;;
  if strict_eq ty (VStr "text") then
    c <- get msg "content" ;;
    Ok (push content (TextBlock c))
  else if strict_eq ty (VStr "image") then
    t <- get msg "text" ;;
    let content := if truthy t then push content (TextBlock t) else content in
    d <- get msg "content" ;;
    Ok (push content (ImageBlock d "image/png"))
  else Ok content.

(** [for (const msg of unityResponse.messages)] (lines 20-39). *)
Fixpoint messages_loop (content : list block) (messages : list value)
  : result (list block) :=
  match messages with
  | [] => Ok content
  | msg :: rest =>
      content <- push_entry content msg ;;
      messages_loop content rest
  end.

(** Lines 53-58. *)
Definition push_message (content : list block) (message : value) : list block :=
  if truthy message then push content (TextBlock message) else content.

(** Lines 60-65. *)
Definition push_data (content : list block) (data message : value) : list block :=
  if truthy data && negb (strict_eq data message)
  then push content (TextBlock data)
  else content.

(** Lines 67-77. *)
Definition push_image (content : list block) (image : value) : list block :=
  if truthy image
  then push (push content (TextBlock (VStr "Unity Screenshot")))
            (ImageBlock image "image/png")
  else content.

(** The callback given to [errors.map] (lines 80-87). *)
Definition render_error (err : value) : result string :=
  if typeof_object err then
    upper <- get err "Level" ;;
    either <- or_else upper (get err "level") ;;
    level <- or_else either (Ok (VStr "Info")) ;;
    upper <- get err "Message" ;;
    either <- or_else upper (get err "message") ;;
    message <- or_else either (Ok (VStr "Unknown error")) ;;
    l <- to_string level ;;
    m <- to_string message ;;
    Ok (l ++ ": " ++ m)
  else call_toString err.

(** Lines 79-93. *)
Definition push_errors (content : list block) (errors : value) : result (list block) :=
  some <- (if truthy errors then length_gt_zero errors else Ok false) ;;
  if some then
    rendered <- call_map "unityData.errors.map" errors render_error ;;
    let errorText := String.concat nl rendered in
    Ok (push content (TextBlock (VStr ("Unity Logs:" ++ nl ++ errorText))))
  else Ok content.

(** Lines 51-93 of [convertLegacyResponse]: the blocks pushed for [message],
    [data], [image] and [errors], in that order. *)
Definition legacy_fields (unityData : value) : result (list block) :=
  let content := [] in
  message <- get unityData "message" ;;
  let content := push_message content message in
  data <- get unityData "data" ;;
  let content := push_data content data message in
  image <- get unityData "image" ;;
  let content := push_image content image in
  errors <- get unityData "errors" ;;
  push_errors content errors.

(** Lines 95-102: the status block when nothing was pushed. *)
Definition convertLegacyResponse (unityData : value) : result response :=
  content <- legacy_fields unityData ;;
  if Nat.eqb (length content) 0 then
    status <- get unityData "status" ;;
    shown <- or_else status (Ok (VStr "Unknown")) ;;
    s <- to_string shown ;;
    Ok {| content := push content (TextBlock (VStr ("Unity Status: " ++ s))) |}
  else Ok {| content := content |}.

Definition convertToMCPResponse (unityResponse : value) : result response :=
  messages <- get unityResponse "messages" ;;
  if truthy messages && isArray messages then
    match messages with
    | VArr entries =>
        content <- messages_loop [] entries ;;
        Ok {| content := content |}
    | _ => convertLegacyResponse unityResponse
    end
  else convertLegacyResponse unityResponse.

(** What [axios.post] is called with, and how its promise settles: resolved
    with a response whose [data] is the parsed body, or rejected with an
    error that has a [message] and, when the server answered, a [response]
    with its [data]. *)
Record request := {
  url : string;
  body : option string;
  timeout : Z
}.

Record failure := {
  message : string;
  response_data : option value
}.

Inductive settled :=
| Resolved (data : value)
| Rejected (error : failure).

(** The call [axios.post(`${UNITY_BASE_URL}${endpoint}`, jsonData, {timeout, ...})]
    of lines 110-119, after the defaults [data = {}] and [timeout = 10000]
    of the signature. *)
Definition request_for (endpoint : string) (data : value) (timeout : option Z)
  : request :=
  let data := match data with VUndefined => VObj [] | _ => data end in
  let timeout := match timeout with Some t => t | None => 10000%Z end in
  let jsonData := stringify data in
  {| url := UNITY_BASE_URL ++ endpoint; body := jsonData; timeout := timeout |}.

(** The [try] block of [handleUnityRequest] (lines 110-121): its value, or
    what it throws into the [catch]. *)
Definition attempt (post : request -> settled) (endpoint : string)
    (data : value) (timeout : option Z) : response + failure :=
  match post (request_for endpoint data timeout) with
  | Resolved d =>
      match convertToMCPResponse d with
      | Ok r => inl r
      | Throw e => inr {| message := error_message e; response_data := None |}
      end
  | Rejected error => inr error
  end.

(** The [catch] block (lines 122-141). [error.response?.data] is
    [response_data], [undefined] when the error has no [response]. *)
Definition recover (error : failure) : result response :=
  let errorContent :=
    [TextBlock (VStr ("Unity Connection Error: " ++ message error ++ nl ++
                      "Check: Unity running, Bridge Window open, Port 7777 active."))] in
  let data := match response_data error with
              | Some d => d
              | None => VUndefined
              end in
  if truthy data then
    match convertToMCPResponse data with
    | Ok unityError => Ok {| content := (errorContent ++ content unityError)%list |}
    | Throw _ =>
        Ok {| content :=
                push errorContent
                  (TextBlock (VStr ("Unity Error Details: " ++ stringify_text data))) |}
    end
  else Ok {| content := errorContent |}.

(** [handleUnityRequest(endpoint, data = {}, timeout = 10000)]; [post] is the
    upstream as [axios.post] reaches it. *)
Definition handleUnityRequest (post : request -> settled) (endpoint : string)
    (data : value) (timeout : option Z) : result response :=
  match attempt post endpoint data timeout with
  | inl r => Ok r
  | inr error => recover error
  end.

(** The request body of the [camera_screenshot] handler (lines 214-220). *)
Definition camera_request_body (params : value) : result value :=
  position <- get params "position" ;;
  target <- get params "target" ;;
  fov <- get params "fov" ;;
  fov <- or_else fov (Ok (VNum (num_of_Z 60))) ;;
  width <- get params "width" ;;
  width <- or_else width (Ok (VNum (num_of_Z 1920))) ;;
  height <- get params "height" ;;
  height <- or_else height (Ok (VNum (num_of_Z 1080))) ;;
  Ok (VObj [("position", position); ("target", target); ("fov", fov);
            ("width", width); ("height", height)]).

(** The handler of the [camera_screenshot] tool (lines 213-223). *)
Definition camera_screenshot (post : request -> settled) (params : value)
  : result response :=
  requestBody <- camera_request_body params ;;
  handleUnityRequest post "/api/camera_screenshot" requestBody (Some 20000%Z).

End Normalizer.
End Unity.

(** * The [wait_for_user] tool of the terminal tools module *)

Module Terminal.
Import JS.

(** The arguments, as the tool's input schema types them; [None] is a
    property left out, which the destructuring replaces by its default. *)
Record args := {
  request : string;
  details : option string;
  expect_answer : option bool;
  answer_placeholder : option string
}.

(** How the promises of the two process helpers settle. [execAsync] resolves
    with the output of a command that has exited with status 0 and rejects
    otherwise; the value [spawnBackground] resolves with is not used. *)
Inductive exec_settled :=
| ExecResolved (stdout : string)
| ExecRejected (message : string).

Inductive spawn_settled :=
| SpawnResolved
| SpawnRejected (message : string).

(** The system a call runs on: [process.platform] and the two helpers. *)
Record system := {
  platform : string;
  execAsync : string -> exec_settled;
  spawnBackground : string -> spawn_settled
}.

(** The handler returns a string or throws an [Error] with a message. *)
Inductive outcome :=
| Returns (text : string)
| Fails (message : string).

(** [try { body } catch (error) { handler(error.message) }]. *)
Definition try_catch (body : outcome) (handler : string -> outcome) : outcome :=
  match body with
  | Returns text => Returns text
  | Fails message => handler message
  end.

Definition quoted (s : string) : string := dq ++ s ++ dq.
(** [\\"s\\"] inside a template literal: the quotes behind backslashes. *)
Definition bquoted (s : string) : string := bs ++ dq ++ s ++ bs ++ dq.

Definition osascript (script : string) : string := "osascript -e '" ++ script ++ "'".

(** Line 266: the script of the macOS dialog with an input field. *)
Definition answer_script (fullRequest title answer_placeholder : string) : string :=
  "display dialog " ++ quoted (escape_quotes fullRequest) ++
  " with title " ++ quoted title ++
  " default answer " ++ quoted answer_placeholder ++
  " buttons {" ++ quoted "Отправить" ++ ", " ++ quoted "Отмена" ++
  "} default button " ++ quoted "Отправить".

(** Line 280: the script of the macOS dialog with two buttons. *)
Definition confirm_script (fullRequest title : string) : string :=
  "display dialog " ++ quoted (escape_quotes fullRequest) ++
  " with title " ++ quoted title ++
  " buttons {" ++ quoted "Выполнено" ++ ", " ++ quoted "Отмена" ++
  "} default button " ++ quoted "Выполнено".

(** Lines 264-277: the macOS dialog with an input field. *)
Definition darwin_answer (sys : system) (fullRequest title answer_placeholder : string)
  : outcome :=
  let script := answer_script fullRequest title answer_placeholder in
  try_catch
    match execAsync sys (osascript script) with
    | ExecResolved stdout =>
        match match_literal_then_line "text returned:" stdout with
        | Some captured => Returns ("User Answer: " ++ quoted (trim captured))
        | None => Fails "Failed to retrieve user input."
        end
    | ExecRejected message => Fails message
    end
    (fun _ => Fails "User cancelled input.").

(** Lines 279-290: the macOS dialog with two buttons. *)
Definition darwin_confirm (sys : system) (fullRequest title : string) : outcome :=
  let script := confirm_script fullRequest title in
  try_catch
    match execAsync sys (osascript script) with
    | ExecResolved stdout =>
        if includes stdout "Выполнено"
        then Returns "User confirmed execution."
        else Fails "User cancelled operation."
    | ExecRejected message => Fails message
    end
    (fun _ => Fails "User cancelled operation.").

(** Lines 294-308: the terminal window of the other platforms. *)
Definition fallback_command (os : string) (expect_answer : bool)
    (fullRequest title : string) : string :=
  if expect_answer then
    if os =? "win32" then
      "start cmd /k " ++
      quoted ("echo " ++ title ++ " && echo. && echo " ++ fullRequest ++
              " && echo. && echo Please type your answer in Cursor chat && echo. && pause")
    else
      "x-terminal-emulator -e " ++
      quoted ("bash -c 'echo " ++ bquoted title ++ "; echo; echo " ++ bquoted fullRequest ++
              "; echo; echo " ++ bquoted "Please type your answer in Cursor chat" ++
              "; read -p " ++ bquoted "Press Enter..." ++ "'")
  else
    if os =? "win32" then
      "start cmd /k " ++
      quoted ("echo " ++ title ++ " && echo. && echo " ++ fullRequest ++
              " && echo. && echo Close this window when done && echo. && pause")
    else
      "x-terminal-emulator -e " ++
      quoted ("bash -c 'echo " ++ bquoted title ++ "; echo; echo " ++ bquoted fullRequest ++
              "; echo; read -p " ++ bquoted "Press Enter when done..." ++ "'").

Definition fallback (sys : system) (expect_answer : bool) (fullRequest title : string)
  : outcome :=
  match spawnBackground sys (fallback_command (platform sys) expect_answer fullRequest title) with
  | SpawnResolved =>
      Returns (if expect_answer
               then "Waiting for user input in chat..."
               else "Waiting for user confirmation...")
  | SpawnRejected message => Fails message
  end.

(** Lines 249-254: the defaults of the destructuring of the arguments. *)
Definition expects_answer (a : args) : bool :=
  match expect_answer a with
  | Some b => b
  | None => false
  end.

Definition details_of (a : args) : string :=
  match details a with
  | Some d => d
  | None => ""
  end.

Definition placeholder_of (a : args) : string :=
  match answer_placeholder a with
  | Some p => p
  | None => "Введите ваш ответ..."
  end.

(** Line 257. *)
Definition title (expect_answer : bool) : string :=
  if expect_answer then "Вопрос от AI" else "Запрос действия".

(** Lines 258-260. *)
Definition fullRequest (request details : string) : string :=
  if negb (details =? "")
  then request ++ nl ++ nl ++ "Детали: " ++ details
  else request.

(** The handler (lines 248-313). *)
Definition wait_for_user (sys : system) (a : args) : outcome :=
  let request := request a in
  let details := details_of a in
  let expect_answer := expects_answer a in
  let answer_placeholder := placeholder_of a in
  let os := platform sys in
  let title := title expect_answer in
  let fullRequest := fullRequest request details in
  try_catch
    (if os =? "darwin" then
       if expect_answer
       then darwin_answer sys fullRequest title answer_placeholder
       else darwin_confirm sys fullRequest title
     else fallback sys expect_answer fullRequest title)
    (fun message => Fails ("Interaction Error: " ++ message)).

(** The command that a call on macOS hands to [execAsync] (lines 266-268 and
    280-282), and the one that a call on a platform [os] other than macOS
    hands to [spawnBackground] (lines 295-299 and 302-306). *)
Definition dialog_command (a : args) : string :=
  let fullRequest := fullRequest (request a) (details_of a) in
  osascript (if expects_answer a
             then answer_script fullRequest (title true) (placeholder_of a)
             else confirm_script fullRequest (title false)).

Definition terminal_command (os : string) (a : args) : string :=
  fallback_command os (expects_answer a)
    (fullRequest (request a) (details_of a)) (title (expects_answer a)).

End Terminal.

(** * An engine to run the model on

    Numbers are the integers and NaN, which is all that the payloads of the
    examples need; the messages are those of V8. *)

Module Sample.
Import JS.

Definition nan_or (f : Z -> bool) (n : option Z) : bool :=
  match n with
  | Some z => f z
  | None => false
  end.

Definition show (n : option Z) : string :=
  match n with
  | Some z => NilZero.string_of_int (Z.to_int z)
  | None => "NaN"
  end.

Definition parse (s : string) : option Z :=
  match s with
  | EmptyString => Some 0%Z
  | _ => option_map Z.of_int (NilEmpty.int_of_string s)
  end.

Definition describe (e : js_error) : string :=
  match e with
  | CannotReadProperty OfUndefined p =>
      "Cannot read properties of undefined (reading '" ++ p ++ "')"
  | CannotReadProperty OfNull p =>
      "Cannot read properties of null (reading '" ++ p ++ "')"
  | NotAFunction callee => callee ++ " is not a function"
  | NoPrimitiveValue => "Cannot convert object to primitive value"
  end.

#[export] Instance engine : Engine := {|
  num := option Z;
  num_eqb a b := match a, b with Some x, Some y => Z.eqb x y | _, _ => false end;
  num_truthy := nan_or (fun z => negb (Z.eqb z 0));
  num_gt0 := nan_or (fun z => Z.ltb 0 z);
  num_finite := nan_or (fun _ => true);
  num_to_string := show;
  str_to_num := parse;
  num_of_Z z := Some z;
  error_message := describe
|}.

(** [n] as a payload number. *)
Definition int (n : Z) : value := VNum (Some n).

(** A payload that has a [messages] sequence and every legacy field. *)
Definition mixed_payload : value :=
  VObj [("message", VStr "legacy"); ("data", VStr "d"); ("image", VStr "i");
        ("errors", VArr [VStr "e"]); ("status", VStr "s");
        ("messages", VArr [VObj [("type", VStr "text"); ("content", VStr "hello")]])].

Import Terminal.

(** A Linux system on which the terminal window opens. *)
Definition linux : system := {|
  platform := "linux";
  execAsync := fun _ => ExecRejected "spawn osascript ENOENT";
  spawnBackground := fun _ => SpawnResolved
|}.

Definition question : args := {|
  request := "Which scene should I open?";
  details := None;
  expect_answer := Some true;
  answer_placeholder := None
|}.

(** A macOS system whose dialog prints [stdout] (or is dismissed). *)
Definition darwin (dialog : exec_settled) : system := {|
  platform := "darwin";
  execAsync := fun _ => dialog;
  spawnBackground := fun _ => SpawnRejected "not used"
|}.

End Sample.

(** * The specification's vocabulary

    Definitions that follow the words of the specification (its data model
    and the rules of its section 4.4), to be compared with the code above. *)

Module Spec.
Import JS Unity.

Section DataModel.
Context {E : Engine}.

(** A payload takes the legacy path when it is not [null] and has no
    [messages] sequence. *)
Definition legacy_shape (p : value) : bool :=
  negb (nullish p) && negb (isArray (field p "messages")).

(** An optional field of the data model that holds text when present. *)
Definition optional_text (v : value) : bool :=
  match v with
  | VUndefined | VStr _ => true
  | _ => false
  end.

(** An entry of [errors]: [{level|Level, message|Message} | string]. *)
Definition error_entry (e : value) : bool :=
  match e with
  | VStr _ => true
  | VObj _ =>
      optional_text (field e "Level") && optional_text (field e "level") &&
      optional_text (field e "Message") && optional_text (field e "message")
  | _ => false
  end.

(** [errors?: [ ... ]] *)
Definition errors_field (errors : value) : bool :=
  match errors with
  | VUndefined => true
  | VArr items => forallb error_entry items
  | _ => false
  end.

(** The legacy form [{message?, data?, image?, errors?, status?}]: [errors]
    and [status] have the types above, every other field is free. *)
Definition conforms (p : value) : bool :=
  negb (nullish p) && errors_field (field p "errors") && optional_text (field p "status").

(** The text of [v] when it is a non-empty string, [otherwise] if not. *)
Definition text_or (v : value) (otherwise : string) : string :=
  match v with
  | VStr s => if s =? "" then otherwise else s
  | _ => otherwise
  end.

(** An error rendered as ["<Level>: <Message>"], from the capitalized or the
    lowercase fields; a plain string is rendered as itself. *)
Definition error_line (e : value) : string :=
  match e with
  | VStr s => s
  | _ =>
      text_or (field e "Level") (text_or (field e "level") "Info") ++ ": " ++
      text_or (field e "Message") (text_or (field e "message") "Unknown error")
  end.

(** The blocks of one entry of [messages] (rule 1 of section 4.4): a text
    entry gives one text block; an image entry gives an image block, behind
    a text block when its [text] is present and non-empty; any other entry
    gives nothing. *)
Definition entry_blocks (e : value) : list block :=
  if strict_eq (field e "type") (VStr "text") then
    [TextBlock (field e "content")]
  else if strict_eq (field e "type") (VStr "image") then
    (if truthy (field e "text") then [TextBlock (field e "text")] else [])
    ++ [ImageBlock (field e "content") "image/png"]
  else [].

(** The first block of the failure path: the connectivity message and the
    remediation hint. *)
Definition connectivity_block (message : string) : block :=
  TextBlock (VStr ("Unity Connection Error: " ++ message ++ nl ++
                   "Check: Unity running, Bridge Window open, Port 7777 active.")).

(** A structured body: a JSON object or array, as opposed to a text (a body
    that could not be parsed is kept as text), a number, a boolean or
    [null]. *)
Definition structured (body : value) : bool :=
  match body with
  | VObj _ | VArr _ => true
  | _ => false
  end.

(** The block appended when the body of a failure cannot be normalised: the
    body rendered as JSON text. *)
Definition details_block (body : value) : block :=
  TextBlock (VStr ("Unity Error Details: " ++ stringify_text body)).

(** None of steps (a)-(d) of rule 2 produces a block: [message] is absent
    or empty; so is [data], unless it repeats [message]; so is [image]; and
    [errors] is absent or empty, or it has no positive [length]. *)
Definition no_field_block (p : value) : Prop :=
  truthy (field p "message") = false /\
  (truthy (field p "data") = false \/
   strict_eq (field p "data") (field p "message") = true) /\
  truthy (field p "image") = false /\
  (truthy (field p "errors") = false \/ length_gt_zero (field p "errors") = Ok false).

(** The blocks of steps (a) and (b), and of steps (a)-(c), of rule 2. *)
Definition text_blocks (p : value) : list block :=
  push_data (push_message [] (field p "message")) (field p "data") (field p "message").

Definition blocks_before_errors (p : value) : list block :=
  push_image (text_blocks p) (field p "image").

(** The block of step (d): the lines under the heading. *)
Definition logs_block (lines : list string) : block :=
  TextBlock (VStr ("Unity Logs:" ++ nl ++ String.concat nl lines)).

(** The block of step (e). *)
Definition status_block (shown : string) : block :=
  TextBlock (VStr ("Unity Status: " ++ shown)).

(** The caption and image blocks of step (c). *)
Definition screenshot_blocks (image : value) : list block :=
  [TextBlock (VStr "Unity Screenshot"); ImageBlock image "image/png"].

End DataModel.

(** The contract of section 4.5 for an interactive call: one string, the
    entered answer or the fixed confirmation, or a user-cancelled error.
    [any_answer] is its most generous reading: an answer, whatever its text
    is. It serves to show that an outcome is outside the contract; which
    text is returned is stated with the outcome itself. *)
Definition any_answer (r : Terminal.outcome) : Prop :=
  exists text, r = Terminal.Returns ("User Answer: " ++ Terminal.quoted text).

Definition confirmation (r : Terminal.outcome) : Prop :=
  r = Terminal.Returns "User confirmed execution.".

Definition user_cancelled (r : Terminal.outcome) : Prop :=
  r = Terminal.Fails "Interaction Error: User cancelled input." \/
  r = Terminal.Fails "Interaction Error: User cancelled operation.".

Definition interactive_contract (expect_answer : bool) (r : Terminal.outcome) : Prop :=
  (if expect_answer then any_answer r else confirmation r) \/ user_cancelled r.

(** What the call returns on the platforms without a native dialog: a notice
    that the question has been put on screen. *)
Definition waiting_notice (expect_answer : bool) : string :=
  if expect_answer
  then "Waiting for user input in chat..."
  else "Waiting for user confirmation...".

End Spec.

(** * The other tools of unity.js *)

Module UnityTools.
Import JS Unity.

Section Handlers.
Context {E : Engine}.

(** The handler of [screenshot] (lines 159-161): it does not look at its
    arguments, and leaves [data] and [timeout] to their defaults. *)
Definition screenshot (post : request -> settled) (params : value) : result response :=
  handleUnityRequest post "/api/screenshot" VUndefined None.

(** The handler of [scene_hierarchy] (lines 245-251). *)
Definition scene_hierarchy (post : request -> settled) (params : value)
  : result response :=
  detailed <- get params "detailed" ;;
  detailed <- or_else detailed (Ok (VBool false)) ;;
  let requestBody := VObj [("detailed", detailed)] in
  handleUnityRequest post "/api/scene_hierarchy" requestBody (Some 15000%Z).

(** The handler of [execute] (lines 283-289). *)
Definition execute (post : request -> settled) (params : value) : result response :=
  code <- get params "code" ;;
  let requestBody := VObj [("code", code)] in
  handleUnityRequest post "/api/execute" requestBody (Some 30000%Z).

(** A block is a text block, or an image block of the given media type. *)
Definition text_or_image_of (mime : string) (b : block) : Prop :=
  match b with
  | TextBlock _ => True
  | ImageBlock _ m => m = mime
  end.

Definition is_text (b : block) : Prop :=
  match b with
  | TextBlock _ => True
  | ImageBlock _ _ => False
  end.

(** A value compared by reference: an array or an object. *)
Definition by_reference (v : value) : bool :=
  match v with
  | VArr _ | VObj _ => true
  | _ => false
  end.

(** The six properties of a payload that the normaliser reads. *)
Definition payload_fields : list string :=
  ["messages"; "message"; "data"; "image"; "errors"; "status"].

End Handlers.
End UnityTools.

(** * The other tools of the terminal tools module *)

Module Tools.
Import JS Terminal.

(** What [execAsync] resolves with, and how its promise settles. *)
Record exec_output := {
  stdout : string;
  stderr : string
}.

Inductive exec_settled :=
| Exited (output : exec_output)
| Crashed (message : string).

(** The machine a tool runs on: [execAsync], and the time of the call as
    [Intl.DateTimeFormat] writes it for Moscow. *)
Record machine := {
  execAsync : string -> exec_settled;
  mskTime : string
}.

(** [stdout] of a command, or the message it failed with. *)
Definition run (m : machine) (command : string) : string + string :=
  match execAsync m command with
  | Exited output => inl (stdout output)
  | Crashed message => inr message
  end.

(** ** echo (lines 26-32) *)

(** What a call leaves behind: the lines given to [logInfo] and the value
    returned. *)
Record logged (A : Type) := {
  info : list string;
  returned : A
}.
Arguments info {A} l.
Arguments returned {A} l.

Definition echo (message : string) : logged string :=
  {| info := ["Info: Received echo message: " ++ message];
     returned := "Echo response:" ++ nl ++ "Message: " ++ message ++ nl ++ "Status: OK" |}.

(** ** find_process (lines 162-177) *)

Definition find_process (m : machine) (name : string) : outcome :=
  try_catch
    match run m ("ps aux | grep -i " ++ quoted name ++ " | grep -v grep") with
    | inl stdout =>
        let result := trim stdout in
        if negb (result =? "")
        then Returns ("Process Search Result (" ++ name ++ "):" ++ nl ++ nl ++ result)
        else Fails ("No processes found matching name: " ++ name)
    | inr message => Fails message
    end
    (fun message => Fails ("Process Search Error: " ++ message)).

(** ** safe_curl (lines 192-224) *)

(** The arguments as the schema types them; [method] is one of [GET],
    [POST], [PUT] and [DELETE]. *)
Record curl_args := {
  url : string;
  method : option string;
  data : option string
}.

(** [if (data)]: given and not empty. *)
Definition given (data : option string) : option string :=
  match data with
  | Some d => if d =? "" then None else Some d
  | None => None
  end.

(** Lines 196-204. *)
Definition curl_command (url method : string) (data : option string) : string :=
  let cmd := "curl -s " ++ quoted url in
  let cmd := if negb (method =? "GET") then cmd ++ " -X " ++ method else cmd in
  match given data with
  | Some d => cmd ++ " -d " ++ quoted d
  | None => cmd
  end.

(** Lines 208-220. *)
Definition curl_response (url method : string) (data : option string)
    (output : exec_output) : string :=
  let response := "HTTP Request (" ++ method ++ " " ++ url ++ ")" ++ nl in
  let response :=
    match given data with
    | Some d => response ++ "Data: " ++ d ++ nl
    | None => response
    end in
  let response := response ++ nl ++ "Response:" ++ nl ++ stdout output in
  if negb (stderr output =? "")
  then response ++ nl ++ nl ++ "Warnings:" ++ nl ++ stderr output
  else response.

Definition safe_curl (m : machine) (a : curl_args) : outcome :=
  let url := url a in
  let method := match method a with Some x => x | None => "GET" end in
  let data := data a in
  try_catch
    match execAsync m (curl_command url method data) with
    | Exited output => Returns (curl_response url method data output)
    | Crashed message => Fails message
    end
    (fun message =>
       Fails ("HTTP Request Error (" ++ method ++ " " ++ url ++ "): " ++ message)).

(** ** Lines of an output *)

(** [s.split('\n')]. *)
Fixpoint split_lines (s : string) : list string :=
  match s with
  | EmptyString => [EmptyString]
  | String c rest =>
      if (c =? "010")%char then EmptyString :: split_lines rest
      else
        match split_lines rest with
        | line :: lines => String c line :: lines
        | [] => [String c EmptyString]
        end
  end.

(** [line => line.trim()] as a predicate. *)
Definition not_blank (line : string) : bool := negb (trim line =? "").

(** [stdout.split('\n').filter(line => line.trim())]. *)
Definition lines_of (stdout : string) : list string :=
  filter not_blank (split_lines stdout).

(** The decimal text of a count, and of an integer literal. *)
Definition count_text (n : nat) : string := NilZero.string_of_uint (Nat.to_uint n).
Definition decimal (z : Z) : string := NilZero.string_of_int (Z.to_int z).

Section Numbers.
Context {E : Engine}.

(** ** check_port (lines 134-149) *)

(** The [protocol] enumeration of the schema, and [protocol.toUpperCase()]. *)
Inductive protocol := tcp | udp.

Definition upper (p : protocol) : string :=
  match p with
  | tcp => "TCP"
  | udp => "UDP"
  end.

Record port_args := {
  port : num;
  protocol_of : option protocol
}.

Definition check_port (m : machine) (a : port_args) : outcome :=
  let port := port a in
  let protocol := match protocol_of a with Some p => p | None => tcp end in
  try_catch
    match run m ("lsof -i :" ++ num_to_string port) with
    | inl stdout =>
        let isActive := negb (trim stdout =? "") in
        Returns ("Port Check Result:" ++ nl ++
                 "Port: " ++ num_to_string port ++ nl ++
                 "Protocol: " ++ upper protocol ++ nl ++
                 "Status: " ++ (if isActive then "ACTIVE" else "CLOSED") ++ nl ++
                 (if isActive then nl ++ "Details:" ++ nl ++ trim stdout else ""))
    | inr message => Fails message
    end
    (fun message =>
       Fails ("Port Check Error (Port: " ++ num_to_string port ++ "): " ++ message)).

(** ** system_info (lines 46-120) *)

(** ToIntegerOrInfinity of a number. *)
Inductive extended := MinusInfinity | Finite (z : Z) | PlusInfinity.

(** The arithmetic of the process list, left to the engine:
    ToIntegerOrInfinity, and the text of
    [Math.round(parseFloat(x) / 1024)] for a column [x] of [ps] ([None] when
    the line has no such column). *)
Class Arithmetic := {
  to_integer : num -> extended;
  megabytes : option string -> string
}.

Context {A : Arithmetic}.

Record info_args := {
  include_processes : option bool;
  max_processes : option num
}.

(** The [checkPort] of lines 63-70. *)
Definition checkPort (m : machine) (port : Z) : string :=
  match run m ("lsof -i :" ++ decimal port) with
  | inl stdout => if negb (trim stdout =? "") then "ACTIVE" else "CLOSED"
  | inr _ => "CLOSED"
  end.

(** Lines 81-87. *)
Definition nodeProcesses (m : machine) : nat :=
  match run m "pgrep -f node" with
  | inl stdout => length (lines_of stdout)
  | inr _ => 0
  end.

(** [array.slice(0, end)]. *)
Definition slice_to {T} (l : list T) (limit : extended) : list T :=
  match limit with
  | MinusInfinity => []
  | PlusInfinity => l
  | Finite z =>
      if (z <? 0)%Z
      then firstn (Z.to_nat (Z.max (Z.of_nat (length l) + z) 0)) l
      else firstn (Z.to_nat z) l
  end.

(** [s.split(/\s+/)] on a trimmed line: the runs between white space. The
    bytes of the line are read with the white space of [trim]. *)
Fixpoint words_of (fuel : nat) (word : list nat) (l : list nat) : list (list nat) :=
  let flush rest := match word with [] => rest | _ => List.rev word :: rest end in
  match fuel with
  | 0 => flush []
  | S fuel =>
      match l with
      | [] => flush []
      | a :: r1 =>
          if space1 a then flush (words_of fuel [] r1)
          else
            match r1 with
            | b :: r2 =>
                if space2 a b then flush (words_of fuel [] r2)
                else
                  match r2 with
                  | c :: r3 =>
                      if space3 a b c then flush (words_of fuel [] r3)
                      else words_of fuel (a :: word) r1
                  | [] => words_of fuel (a :: word) r1
                  end
            | [] => words_of fuel (a :: word) r1
            end
      end
  end.

Definition parts_of (line : string) : list string :=
  let bytes := map nat_of_ascii (list_ascii_of_string (trim line)) in
  match words_of (S (length bytes)) [] bytes with
  | [] => [EmptyString]
  | words => map (fun w => string_of_list_ascii (map ascii_of_nat w)) words
  end.

(** [`${parts[i]}`]. *)
Definition part (parts : list string) (i : nat) : string :=
  match nth_error parts i with
  | Some p => p
  | None => "undefined"
  end.

(** The callback of lines 105-108. *)
Definition process_line (line : string) : string :=
  let parts := parts_of line in
  "  • PID " ++ part parts 1 ++ ": " ++ megabytes (nth_error parts 5) ++
  "MB (" ++ part parts 3 ++ "% CPU)".

(** Lines 99-114: what is added to the report. *)
Definition process_details (m : machine) (limit : num) : string :=
  match run m "ps aux | grep -i node | grep -v grep" with
  | inl stdout =>
      let processes := map process_line (slice_to (lines_of stdout) (to_integer limit)) in
      nl ++ "Node.js Processes Details:" ++ nl ++ String.concat nl processes ++ nl
  | inr message => nl ++ "Process List Error: " ++ message ++ nl
  end.

(** Lines 89-97. *)
Definition port_report (m : machine) : string :=
  "System Info Report:" ++ nl ++
  "Time (MSK): " ++ mskTime m ++ nl ++
  "Port Status:" ++ nl ++
  "  • 1337: " ++ checkPort m 1337 ++ nl ++
  "  • 3000: " ++ checkPort m 3000 ++ nl ++
  "  • 3001: " ++ checkPort m 3001 ++ " (VS Code Bridge)" ++ nl ++
  "  • 8080: " ++ checkPort m 8080 ++ nl ++
  "  • 5000: " ++ checkPort m 5000 ++ nl ++
  "Node.js Processes count: " ++ count_text (nodeProcesses m) ++ nl.

Definition system_info (m : machine) (a : info_args) : outcome :=
  let include_processes := match include_processes a with Some b => b | None => false end in
  let max_processes := match max_processes a with Some n => n | None => num_of_Z 10 end in
  try_catch
    (let systemInfo := port_report m in
     let systemInfo :=
       if include_processes && Nat.ltb 0 (nodeProcesses m)
       then systemInfo ++ process_details m max_processes
       else systemInfo in
     Returns systemInfo)
    (fun message => Fails ("System Info Error: " ++ message)).

End Numbers.
End Tools.

(** * Machines and payloads to run the tools on *)

Module Bench.
Import JS Unity Terminal Tools Sample.

(** Whole numbers of megabytes, for columns that are whole numbers. *)
#[export] Instance arithmetic : Arithmetic := {|
  to_integer n := match n with Some z => Finite z | None => Finite 0%Z end;
  megabytes column :=
    match column with
    | Some text =>
        match parse text with
        | Some kb => show (Some ((kb + 512) / 1024)%Z)
        | None => "NaN"
        end
    | None => "NaN"
    end
|}.

(** A machine on which every command prints [stdout]. *)
Definition printing (stdout : string) : machine := {|
  Tools.execAsync := fun _ => Exited {| stdout := stdout; stderr := "" |};
  mskTime := "02.11.2026, 12:00:00"
|}.

(** A machine on which every command fails. *)
Definition failing (message : string) : machine := {|
  Tools.execAsync := fun _ => Crashed message;
  mskTime := "02.11.2026, 12:00:00"
|}.

(** A machine on which only [pgrep] and [ps] find something. *)
Definition node_machine : machine := {|
  Tools.execAsync := fun command =>
    if command =? "pgrep -f node" then
      Exited {| stdout := "4242" ++ nl; stderr := "" |}
    else if command =? "ps aux | grep -i node | grep -v grep" then
      Exited {| stdout := "dev 4242 0.0 1.5 410000 20480 ?? S 10:00 0:01 node server.js" ++ nl;
                stderr := "" |}
    else Crashed "Command failed";
  mskTime := "02.11.2026, 12:00:00"
|}.

(** An upstream that answers every request with [payload]. *)
Definition answering (payload : value) : Unity.request -> settled :=
  fun _ => Resolved payload.

(** An upstream that refuses every request, with a response that holds
    [body]. *)
Definition refusing (body : value) : Unity.request -> settled :=
  fun _ => Rejected {| message := "Request failed with status code 502";
                       response_data := Some body |}.

(** A Linux system like [linux] on which [osascript] would print something. *)
Definition linux_with_osascript : system := {|
  platform := "linux";
  Terminal.execAsync := fun _ => ExecResolved "button returned:Выполнено";
  spawnBackground := fun _ => SpawnResolved
|}.

End Bench.

(** * Properties of the normaliser *)

Import JS Unity Spec.

Section NormalizerFacts.
Context {E : Engine}.
Arguments field : simpl never.

Lemma get_field (p : value) (k : string) :
  nullish p = false -> get p k = Ok (field p k).
Proof. destruct p; simpl; intros H; try discriminate; reflexivity. Qed.

Lemma field_nullish (p : value) (k : string) :
  nullish p = true -> field p k = VUndefined.
Proof. destruct p; simpl; intros H; try discriminate; reflexivity. Qed.

Lemma legacy_shape_inv (p : value) :
  legacy_shape p = true ->
  nullish p = false /\ isArray (field p "messages") = false.
Proof.
  unfold legacy_shape. intros H. apply andb_true_iff in H as [H1 H2].
  split; [now apply negb_true_iff in H1 | now apply negb_true_iff in H2].
Qed.

Lemma length_push {A} (l : list A) (x : A) : length (push l x) = S (length l).
Proof. unfold push. rewrite length_app. simpl. lia. Qed.

(** The legacy path is taken exactly when there is no [messages] array. *)
Lemma convert_legacy_path (p : value) :
  legacy_shape p = true -> convertToMCPResponse p = convertLegacyResponse p.
Proof.
  intros H. apply legacy_shape_inv in H as [Hn Ha].
  unfold convertToMCPResponse. rewrite (get_field p _ Hn). simpl.
  destruct (field p "messages"); simpl in *;
    rewrite ?andb_false_r; try reflexivity; discriminate.
Qed.

Lemma convert_current_path (p : value) (entries : list value) :
  field p "messages" = VArr entries ->
  convertToMCPResponse p =
  (content <- messages_loop [] entries ;; Ok {| content := content |}).
Proof.
  intros H. assert (Hn : nullish p = false).
  { destruct (nullish p) eqn:N; [|reflexivity].
    rewrite (field_nullish p _ N) in H. discriminate. }
  unfold convertToMCPResponse. rewrite (get_field p _ Hn), H. reflexivity.
Qed.

Lemma legacy_fields_unfold (p : value) :
  nullish p = false ->
  legacy_fields p = push_errors (blocks_before_errors p) (field p "errors").
Proof.
  intros Hn. unfold legacy_fields. rewrite !(get_field p _ Hn). reflexivity.
Qed.

(** Whatever [convertLegacyResponse] returns has a block in it. *)
Lemma legacy_result_nonempty (p : value) (r : response) :
  convertLegacyResponse p = Ok r -> 1 <= length (content r).
Proof.
  unfold convertLegacyResponse. destruct (legacy_fields p) as [c|e]; simpl; [|discriminate].
  destruct (Nat.eqb (length c) 0) eqn:L.
  - destruct (get p "status") as [st|]; simpl; [|discriminate].
    destruct (or_else st (Ok (VStr "Unknown"))) as [sh|]; simpl; [|discriminate].
    destruct (to_string sh); simpl; [|discriminate].
    intros H. injection H as <-. simpl. rewrite length_push. lia.
  - intros H. injection H as <-. simpl. apply Nat.eqb_neq in L. lia.
Qed.

(** An entry of the data model is rendered by the callback as the
    specification words it. *)
Lemma render_error_conforming (e : value) :
  error_entry e = true -> render_error e = Ok (error_line e).
Proof.
  destruct e; simpl; try discriminate; [reflexivity|].
  intros H. repeat (apply andb_true_iff in H as [H ?]).
  unfold render_error, error_line. simpl.
  destruct (field (VObj props) "Level") as [| | | |[|? ?]| |]; try discriminate;
  destruct (field (VObj props) "level") as [| | | |[|? ?]| |]; try discriminate;
  destruct (field (VObj props) "Message") as [| | | |[|? ?]| |]; try discriminate;
  destruct (field (VObj props) "message") as [| | | |[|? ?]| |]; try discriminate;
  reflexivity.
Qed.

Lemma map_render_conforming (items : list value) :
  forallb error_entry items = true ->
  map_result render_error items = Ok (map error_line items).
Proof.
  induction items as [|e rest IH]; simpl; intros H; [reflexivity|].
  apply andb_true_iff in H as [He Hr].
  rewrite (render_error_conforming e He), (IH Hr). reflexivity.
Qed.

(** Step (d) on an [errors] field of the data model. *)
Lemma push_errors_conforming (content : list block) (errors : value) :
  errors_field errors = true ->
  push_errors content errors =
  Ok (match errors with
      | VArr (e :: rest) => push content (logs_block (map error_line (e :: rest)))
      | _ => content
      end).
Proof.
  destruct errors as [| | | | |items|]; simpl; try discriminate; [reflexivity|].
  intros H. unfold push_errors. simpl.
  destruct items as [|e rest]; simpl; [reflexivity|].
  simpl in H. apply andb_true_iff in H as [He Hr].
  rewrite (render_error_conforming e He), (map_render_conforming rest Hr).
  reflexivity.
Qed.

(** On a payload of the data model the legacy path returns. *)
Lemma legacy_returns (p : value) :
  conforms p = true -> exists r, convertLegacyResponse p = Ok r.
Proof.
  unfold conforms. intros H.
  apply andb_true_iff in H as [H Hs]. apply andb_true_iff in H as [Hn He].
  apply negb_true_iff in Hn.
  unfold convertLegacyResponse.
  rewrite (legacy_fields_unfold p Hn), (push_errors_conforming _ _ He). simpl.
  match goal with |- context [Nat.eqb ?n 0] => destruct (Nat.eqb n 0) end;
    [|eexists; reflexivity].
  rewrite (get_field p _ Hn). simpl.
  destruct (field p "status") as [| | | |[|? ?]| |]; try discriminate;
    eexists; reflexivity.
Qed.

(** Steps (a)-(d) leave the content empty exactly when none of them pushes. *)
Lemma silent_fields (p : value) :
  nullish p = false -> no_field_block p -> legacy_fields p = Ok [].
Proof.
  intros Hn (Hm & Hd & Hi & He).
  rewrite (legacy_fields_unfold p Hn).
  unfold blocks_before_errors, text_blocks, push_image, push_data, push_message, push_errors.
  rewrite Hm, Hi.
  assert (D : truthy (field p "data") &&
              negb (strict_eq (field p "data") (field p "message")) = false).
  { destruct Hd as [Hd|Hd]; rewrite Hd; [reflexivity|apply andb_false_r]. }
  rewrite D.
  destruct He as [He|He]; rewrite He.
  - reflexivity.
  - destruct (truthy (field p "errors")); reflexivity.
Qed.

Lemma push_not_empty {A} (l : list A) (x : A) : push l x <> [].
Proof. unfold push. destruct l; discriminate. Qed.

Lemma silent_fields_inv (p : value) :
  nullish p = false -> legacy_fields p = Ok [] -> no_field_block p.
Proof.
  intros Hn. rewrite (legacy_fields_unfold p Hn).
  unfold blocks_before_errors, text_blocks, push_image, push_data, push_message, push_errors.
  unfold no_field_block.
  destruct (truthy (field p "errors")) eqn:Te;
    [destruct (length_gt_zero (field p "errors")) as [[|]|] eqn:Le|];
    simpl; try discriminate;
    try (destruct (call_map _ _ _); simpl; [|discriminate];
         intros H; injection H as H; apply push_not_empty in H; contradiction);
    destruct (truthy (field p "image")); simpl;
    try (intros H; injection H as H; apply push_not_empty in H; contradiction);
    destruct (truthy (field p "data")); simpl;
    destruct (strict_eq (field p "data") (field p "message")); simpl;
    destruct (truthy (field p "message")); simpl;
    try (intros H; injection H as H; apply push_not_empty in H; contradiction);
    intros _; repeat split; auto.
Qed.

(** One round of the loop appends the blocks of the entry. *)
Lemma push_entry_blocks (content : list block) (e : value) :
  nullish e = false ->
  push_entry content e = Ok (content ++ entry_blocks e)%list.
Proof.
  intros Hn. unfold push_entry, entry_blocks. rewrite !(get_field e _ Hn). simpl.
  destruct (strict_eq (field e "type") (VStr "text")); [reflexivity|].
  destruct (strict_eq (field e "type") (VStr "image")).
  - destruct (truthy (field e "text")); unfold push; simpl;
      rewrite <- ?app_assoc; reflexivity.
  - rewrite app_nil_r. reflexivity.
Qed.

(** The loop appends the blocks of the entries, in their order. *)
Lemma messages_loop_blocks (entries : list value) :
  Forall (fun e => nullish e = false) entries ->
  forall content,
    messages_loop content entries = Ok (content ++ flat_map entry_blocks entries)%list.
Proof.
  induction 1 as [|e rest He _ IH]; intros content; simpl.
  - rewrite app_nil_r. reflexivity.
  - rewrite (push_entry_blocks content e He). simpl.
    rewrite IH, app_assoc. reflexivity.
Qed.

(** Step (d) pushes at most one block, behind what is there. *)
Lemma push_errors_appends (content after : list block) (errors : value) :
  push_errors content errors = Ok after ->
  exists tail, after = (content ++ tail)%list /\ length tail <= 1.
Proof.
  unfold push_errors.
  destruct (if truthy errors then length_gt_zero errors else Ok false) as [[|]|];
    simpl; try discriminate.
  - destruct (call_map _ errors render_error); simpl; [|discriminate].
    intros H. injection H as <-. eexists. split; [reflexivity|]. simpl. lia.
  - intros H. injection H as <-. exists []. rewrite app_nil_r. split; [reflexivity|].
    simpl. lia.
Qed.

(** The loop returns only when no entry is [null] or [undefined]. *)
Lemma messages_loop_returns (entries : list value) :
  forall content after,
    messages_loop content entries = Ok after ->
    Forall (fun e => nullish e = false) entries.
Proof.
  induction entries as [|e rest IH]; intros content after H; [constructor|].
  simpl in H. destruct (nullish e) eqn:N.
  - destruct e; try discriminate N; discriminate H.
  - constructor; [exact N|].
    rewrite (push_entry_blocks content e N) in H. simpl in H. exact (IH _ _ H).
Qed.

(** Step (d) on a non-empty sequence: one block with the rendered lines. *)
Lemma push_errors_sequence (content after : list block) (e : value) (rest : list value) :
  push_errors content (VArr (e :: rest)) = Ok after ->
  exists lines,
    map_result render_error (e :: rest) = Ok lines /\
    after = push content (logs_block lines).
Proof.
  unfold push_errors. simpl truthy. simpl length_gt_zero.
  unfold bind at 1. unfold call_map. cbv beta iota.
  destruct (map_result render_error (e :: rest)) as [lines|]; [|discriminate].
  intros H. injection H as <-. exists lines. split; reflexivity.
Qed.

(** The content returned for a [messages] sequence: the blocks of its
    entries. *)
Lemma current_content_returned (p : value) (entries : list value) (r : response) :
  field p "messages" = VArr entries ->
  convertToMCPResponse p = Ok r ->
  content r = flat_map entry_blocks entries.
Proof.
  intros H. rewrite (convert_current_path p entries H).
  destruct (messages_loop [] entries) as [c|] eqn:L; [|discriminate].
  rewrite (messages_loop_blocks entries (messages_loop_returns entries [] c L) []) in L.
  injection L as <-. intros R. injection R as <-. reflexivity.
Qed.

(** A value without properties is normalised to the status block. *)
Lemma no_properties_unknown (p : value) :
  nullish p = false ->
  (forall props, p <> VObj props) ->
  convertToMCPResponse p = Ok {| content := [status_block "Unknown"] |}.
Proof.
  intros Hn Ho. destruct p; try discriminate Hn; try reflexivity.
  exfalso. exact (Ho props eq_refl).
Qed.

(** The loop stops with a [TypeError] at an entry that is [null] or
    [undefined], whose [type] cannot be read. *)
Lemma messages_loop_nullish (entries : list value) (content : list block) :
  Exists (fun e => nullish e = true) entries ->
  exists error, messages_loop content entries = Throw error.
Proof.
  intros H. revert content.
  induction entries as [|e rest IH]; intros content; [inversion H|].
  destruct (nullish e) eqn:N.
  - destruct e; try discriminate N; eexists; reflexivity.
  - inversion H as [? ? He|? ? Hr]; subst; [congruence|].
    simpl. rewrite (push_entry_blocks content e N). simpl. apply (IH Hr).
Qed.

End NormalizerFacts.

Section NormalizerProperties.
Context {E : Engine}.
Arguments field : simpl never.

(** C1 (as amended): on every payload that takes the legacy path, whether
    its fields are recognized or not, the content that the normaliser
    returns holds at least one block; and on every such payload of the data
    model it does return. (A payload with a [messages] sequence is outside
    this guarantee: it yields the blocks of its recognized entries, possibly
    none.) *)
Theorem legacy_content_never_empty (p : value) :
  legacy_shape p = true ->
  (forall r, convertToMCPResponse p = Ok r -> 1 <= length (content r)) /\
  (conforms p = true -> exists r, convertToMCPResponse p = Ok r).
Proof.
  intros H. rewrite (convert_legacy_path p H). split.
  - intros r. apply legacy_result_nonempty.
  - apply legacy_returns.
Qed.

(** C2 (as amended): when the upstream call of [handleUnityRequest] fails,
    the function returns (it does not throw) a content sequence whose first
    block is the text block with the failure message and the remediation
    hint. Nothing follows when the failure carries no body, or one that is
    [null], [false], [0] or the empty text. When it carries a structured
    body (an object or an array), the blocks of the normalised body follow,
    or, when normalising that body throws, one text block with the body
    rendered as JSON. When it carries any other body (a text that is not
    empty, such as a body that could not be parsed, a number other than 0,
    or [true]), one block follows: [Unity Status: Unknown]. *)
Theorem failed_request_returns_error_content
    (post : request -> settled) (endpoint : string) (data : value)
    (timeout : option Z) (error : failure) :
  post (request_for endpoint data timeout) = Rejected error ->
  exists rest,
    handleUnityRequest post endpoint data timeout =
      Ok {| content := connectivity_block (message error) :: rest |} /\
    match response_data error with
    | None => rest = []
    | Some body =>
        if structured body then
          match convertToMCPResponse body with
          | Ok r => rest = content r
          | Throw _ => rest = [details_block body]
          end
        else if truthy body then rest = [status_block "Unknown"]
        else rest = []
    end.
Proof.
  intros H. unfold handleUnityRequest, attempt. rewrite H.
  unfold recover.
  destruct (response_data error) as [body|]; cbn [bind];
    [|eexists; split; reflexivity].
  destruct (structured body) eqn:S.
  - assert (T : truthy body = true) by (destruct body; try discriminate S; reflexivity).
    rewrite T.
    destruct (convertToMCPResponse body) as [r|e]; eexists; split; reflexivity.
  - destruct (truthy body) eqn:T; [|eexists; split; reflexivity].
    rewrite (no_properties_unknown body).
    + eexists; split; reflexivity.
    + destruct body; try discriminate T; reflexivity.
    + intros props ->. discriminate S.
Qed.

(** C3 (as amended): when the [messages] field of a payload is a sequence,
    the normaliser applies the current-shape rules to that sequence and
    nothing else: the result is the one for the payload stripped of every
    other field, and every block of the content is the block of an entry, so
    no legacy field ([message], [data], [image], [errors], [status]) adds a
    block. *)
Theorem messages_sequence_overrides_legacy_fields (p : value) (entries : list value) :
  field p "messages" = VArr entries ->
  convertToMCPResponse p = convertToMCPResponse (VObj [("messages", VArr entries)]) /\
  (forall r, convertToMCPResponse p = Ok r ->
             content r = flat_map entry_blocks entries).
Proof.
  intros H. split.
  - rewrite (convert_current_path p entries H).
    symmetry. apply convert_current_path. reflexivity.
  - intros r. apply current_content_returned. exact H.
Qed.

(** C4 (as amended): on a payload whose [messages] field is a sequence in
    which no entry is [null] (or [undefined]), the normaliser returns, and
    the content is made of the blocks of the entries, in input order: one
    text block with the [content] of a ['text'] entry; for an ['image'] entry
    an image block with its [content] and the media type [image/png], right
    behind a text block with its [text] exactly when that is present and
    non-empty; nothing, and no error, for an entry of any other type (also
    for one without a [type], or one that is not an object). Whatever is
    returned for a [messages] sequence is that content. An entry that is
    [null] makes the normaliser throw: nothing is returned. *)
Theorem current_shape_maps_entries_in_order (p : value) (entries : list value) :
  field p "messages" = VArr entries ->
  (Forall (fun e => nullish e = false) entries ->
   convertToMCPResponse p = Ok {| content := flat_map entry_blocks entries |}) /\
  (forall r, convertToMCPResponse p = Ok r ->
             content r = flat_map entry_blocks entries) /\
  (Exists (fun e => nullish e = true) entries ->
   exists error, convertToMCPResponse p = Throw error).
Proof.
  intros H. split; [|split].
  - intros Hn. rewrite (convert_current_path p entries H).
    rewrite (messages_loop_blocks entries Hn []). reflexivity.
  - intros r. apply current_content_returned. exact H.
  - intros Hn. rewrite (convert_current_path p entries H).
    destruct (messages_loop_nullish entries [] Hn) as [error T].
    exists error. rewrite T. reflexivity.
Qed.

(** C5: a legacy payload with non-empty strings [message] and [data] and
    neither [image] nor [errors] yields one text block when the two strings
    are equal, and the two text blocks, [message] first, when they differ. *)
Theorem data_equal_to_message_is_not_repeated (p : value) (m d : string) :
  legacy_shape p = true ->
  field p "message" = VStr m -> m <> "" ->
  field p "data" = VStr d -> d <> "" ->
  field p "image" = VUndefined ->
  field p "errors" = VUndefined ->
  convertToMCPResponse p =
  Ok {| content := if d =? m then [TextBlock (VStr m)]
                   else [TextBlock (VStr m); TextBlock (VStr d)] |}.
Proof.
  intros H Hm Nm Hd Nd Hi He.
  rewrite (convert_legacy_path p H).
  apply legacy_shape_inv in H as [Hn _].
  unfold convertLegacyResponse. rewrite (legacy_fields_unfold p Hn).
  unfold blocks_before_errors, text_blocks. rewrite Hm, Hd, Hi, He.
  unfold push_message, push_data, push_image, push_errors. simpl.
  apply String.eqb_neq in Nm, Nd. rewrite Nm, Nd. simpl.
  destruct (d =? m); reflexivity.
Qed.

(** C6: on a legacy payload whose [errors] field is a non-empty sequence,
    the content that the normaliser returns is the blocks of [message],
    [data] and [image] followed by exactly one text block: the heading
    [Unity Logs:] and the rendered entries, one per line. On the entries of
    the data model it does return, and the line of an object entry is
    ["<Level>: <Message>"], from its capitalized or lowercase fields, and the
    line of a plain string is the string itself. *)
Theorem errors_are_rendered_in_one_block (p : value) (items : list value) :
  legacy_shape p = true ->
  field p "errors" = VArr items ->
  items <> [] ->
  (forall r, convertToMCPResponse p = Ok r ->
     exists lines,
       map_result render_error items = Ok lines /\
       content r = push (blocks_before_errors p) (logs_block lines)) /\
  (forallb error_entry items = true ->
   convertToMCPResponse p =
   Ok {| content := push (blocks_before_errors p) (logs_block (map error_line items)) |}).
Proof.
  intros H He Hne. rewrite (convert_legacy_path p H).
  apply legacy_shape_inv in H as [Hn _].
  unfold convertLegacyResponse. rewrite (legacy_fields_unfold p Hn), He.
  destruct items as [|e rest]; [contradiction|]. split.
  - intros r. destruct (push_errors _ _) as [c|] eqn:Pe; [|discriminate].
    apply push_errors_sequence in Pe as (lines & Hl & ->).
    simpl bind. rewrite length_push. simpl.
    intros R. injection R as <-. exists lines. split; [exact Hl|reflexivity].
  - intros Hc. rewrite push_errors_conforming by exact Hc.
    simpl bind. rewrite length_push. reflexivity.
Qed.

(** C7: a legacy payload with a non-empty [image] yields, after the blocks
    of [message] and [data] and before the one of [errors], the caption
    [Unity Screenshot] immediately followed by the image block with that
    image and the media type [image/png]; so the [camera_screenshot] handler,
    called with any arguments object (such as position [0,1,2] and target
    [0,0,0]) against an upstream that answers [{image: b64}], returns the
    caption and the image and nothing else. *)
Theorem image_is_captioned :
  (forall p,
     legacy_shape p = true ->
     truthy (field p "image") = true ->
     (forall r, convertToMCPResponse p = Ok r ->
        exists after,
          content r = (text_blocks p ++ screenshot_blocks (field p "image") ++ after)%list /\
          length after <= 1) /\
     (conforms p = true -> exists r, convertToMCPResponse p = Ok r)) /\
  (forall post params b64,
     nullish params = false ->
     b64 <> "" ->
     (forall body, camera_request_body params = Ok body ->
        post (request_for "/api/camera_screenshot" body (Some 20000%Z)) =
        Resolved (VObj [("image", VStr b64)])) ->
     camera_screenshot post params = Ok {| content := screenshot_blocks (VStr b64) |}).
Proof.
  split.
  - intros p H Hi. rewrite (convert_legacy_path p H). split; [|apply legacy_returns].
    apply legacy_shape_inv in H as [Hn _].
    intros r. unfold convertLegacyResponse. rewrite (legacy_fields_unfold p Hn).
    destruct (push_errors _ _) as [c|] eqn:Pe; simpl; [|discriminate].
    apply push_errors_appends in Pe as (tail & -> & Hl).
    unfold blocks_before_errors, push_image. rewrite Hi. unfold push.
    rewrite <- !app_assoc. simpl.
    destruct (Nat.eqb _ 0) eqn:L.
    + apply Nat.eqb_eq in L. rewrite length_app in L. simpl in L. lia.
    + intros R. injection R as <-. exists tail. split; [reflexivity|exact Hl].
  - intros post params b64 Hn Hb Hpost. unfold camera_screenshot.
    destruct (camera_request_body params) as [body|] eqn:B.
    + simpl. unfold handleUnityRequest, attempt. rewrite (Hpost body eq_refl).
      destruct b64 as [|c rest]; [contradiction|]. reflexivity.
    + unfold camera_request_body in B. rewrite !(get_field params _ Hn) in B.
      unfold or_else in B. simpl in B.
      repeat match type of B with
             | context [if ?c then _ else _] => destruct c; simpl in B
             end; discriminate.
Qed.

(** C8: when none of [message], [data], [image] and [errors] produces a
    block, a legacy payload yields exactly one text block: it states the
    status when the payload has one, and [Unknown] when it has none. *)
Theorem status_fallback (p : value) :
  legacy_shape p = true ->
  no_field_block p ->
  (forall s, truthy (field p "status") = true ->
             to_string (field p "status") = Ok s ->
             convertToMCPResponse p = Ok {| content := [status_block s] |}) /\
  (truthy (field p "status") = false ->
   convertToMCPResponse p = Ok {| content := [status_block "Unknown"] |}).
Proof.
  intros H Hq. rewrite (convert_legacy_path p H).
  apply legacy_shape_inv in H as [Hn _].
  unfold convertLegacyResponse.
  rewrite (silent_fields p Hn Hq). simpl. rewrite (get_field p _ Hn). simpl.
  unfold or_else. split.
  - intros s Ht Hs. rewrite Ht. simpl. rewrite Hs. reflexivity.
  - intros Ht. rewrite Ht. reflexivity.
Qed.

(** C10: [""] in a legacy field counts as the field being absent: a payload
    with [""] for [message], [data], [image] or [status] is normalised as the
    same payload without that field; alone in a payload, each of them leaves
    only the status block, which reads [Unknown]; and for an image entry of
    [messages] whose [text] is [""] the loop pushes the image block with no
    caption before it. *)
Theorem empty_string_counts_as_absent :
  (forall p q k,
     In k ["message"; "data"; "image"; "status"] ->
     nullish p = false -> nullish q = false ->
     field p k = VStr "" -> field q k = VUndefined ->
     (forall k', k' <> k -> field p k' = field q k') ->
     convertToMCPResponse p = convertToMCPResponse q) /\
  (forall k,
     In k ["message"; "data"; "image"; "status"] ->
     convertToMCPResponse (VObj [(k, VStr "")]) =
     Ok {| content := [status_block "Unknown"] |}) /\
  (forall content e,
     field e "type" = VStr "image" ->
     field e "text" = VStr "" ->
     push_entry content e = Ok (push content (ImageBlock (field e "content") "image/png"))).
Proof.
  split; [|split].
  - intros p q k Hk Hp Hq Pk Qk Same.
    assert (Hms : field p "messages" = field q "messages").
    { apply Same. simpl in Hk. intuition (subst; discriminate). }
    unfold convertToMCPResponse.
    rewrite (get_field p _ Hp), (get_field q _ Hq), Hms. simpl.
    assert (L : convertLegacyResponse p = convertLegacyResponse q).
    { unfold convertLegacyResponse.
      rewrite (legacy_fields_unfold p Hp), (legacy_fields_unfold q Hq).
      rewrite (get_field p _ Hp), (get_field q _ Hq).
      unfold blocks_before_errors, text_blocks.
      simpl in Hk. destruct Hk as [<-|[<-|[<-|[<-|[]]]]];
        rewrite Pk, Qk;
        repeat match goal with
               | |- context [field p ?x] =>
                   rewrite (Same x) by discriminate
               end;
        try reflexivity.
      destruct (field q "data") as [| | | |[|? ?]| |]; reflexivity. }
    destruct (field q "messages"); simpl; rewrite ?andb_false_r; try exact L.
    reflexivity.
  - intros k Hk. simpl in Hk.
    destruct Hk as [<-|[<-|[<-|[<-|[]]]]]; reflexivity.
  - intros content e Ht Hx.
    assert (Hn : nullish e = false).
    { destruct (nullish e) eqn:N; [|reflexivity].
      rewrite (field_nullish e _ N) in Ht. discriminate. }
    unfold push_entry. rewrite !(get_field e _ Hn), Ht, Hx. reflexivity.
Qed.

(** X1: [handleUnityRequest] returns on every call: whatever the upstream does,
    and whatever the normaliser throws, ends in a content sequence. *)
Theorem handleUnityRequest_never_throws
    (post : request -> settled) (endpoint : string) (data : value) (timeout : option Z) :
  exists r, handleUnityRequest post endpoint data timeout = Ok r.
Proof.
  unfold handleUnityRequest.
  destruct (attempt post endpoint data timeout) as [r|error]; [eexists; reflexivity|].
  unfold recover. destruct (truthy _); [|eexists; reflexivity].
  destruct (convertToMCPResponse _); eexists; reflexivity.
Qed.

(** The loop stops with a [TypeError] at the first [null] entry. *)
Lemma messages_loop_null (before after : list value) (content : list block) :
  Forall (fun e => nullish e = false) before ->
  messages_loop content (before ++ VNull :: after) =
  Throw (CannotReadProperty OfNull "type").
Proof.
  intros H. revert content.
  induction H as [|e rest He _ IH]; intros content; simpl; [reflexivity|].
  rewrite (push_entry_blocks content e He). simpl. apply IH.
Qed.

(** X2: a [null] among the entries of [messages] makes the normaliser throw when
    it reads its [type]; [handleUnityRequest] catches that and answers with
    the connectivity block alone, carrying the message of the [TypeError]. *)
Theorem null_entry_is_reported_as_connection_error
    (post : request -> settled) (endpoint : string) (data : value) (timeout : option Z)
    (p : value) (before after : list value) :
  post (request_for endpoint data timeout) = Resolved p ->
  field p "messages" = VArr (before ++ VNull :: after) ->
  Forall (fun e => nullish e = false) before ->
  convertToMCPResponse p = Throw (CannotReadProperty OfNull "type") /\
  handleUnityRequest post endpoint data timeout =
  Ok {| content := [connectivity_block (error_message (CannotReadProperty OfNull "type"))] |}.
Proof.
  intros Hpost Hm Hb.
  assert (T : convertToMCPResponse p = Throw (CannotReadProperty OfNull "type")).
  { rewrite (convert_current_path p _ Hm), (messages_loop_null before after [] Hb).
    reflexivity. }
  split; [exact T|].
  unfold handleUnityRequest, attempt. rewrite Hpost, T. reflexivity.
Qed.

(** X3: a legacy payload is normalised to at most five blocks: [message],
    [data], the caption, the image and the logs. *)
Theorem legacy_content_has_at_most_five_blocks (p : value) (r : response) :
  legacy_shape p = true ->
  convertToMCPResponse p = Ok r ->
  length (content r) <= 5.
Proof.
  intros H. rewrite (convert_legacy_path p H).
  apply legacy_shape_inv in H as [Hn _].
  unfold convertLegacyResponse. rewrite (legacy_fields_unfold p Hn).
  destruct (push_errors _ _) as [c|] eqn:Pe; simpl; [|discriminate].
  apply push_errors_appends in Pe as (tail & -> & Hl).
  assert (B : length (blocks_before_errors p) <= 4).
  { unfold blocks_before_errors, text_blocks, push_image, push_data, push_message.
    destruct (truthy (field p "message")); destruct (_ && _);
      destruct (truthy (field p "image")); rewrite ?length_push; simpl; lia. }
  destruct (Nat.eqb _ 0) eqn:L.
  - apply Nat.eqb_eq in L.
    destruct (get p "status") as [st|]; simpl; [|discriminate].
    destruct (or_else st _) as [sh|]; simpl; [|discriminate].
    destruct (to_string sh); simpl; [|discriminate].
    intros R. injection R as <-. simpl. rewrite length_push. lia.
  - intros R. injection R as <-. simpl. rewrite length_app. lia.
Qed.

End NormalizerProperties.

(** * Properties of [wait_for_user] *)

Import Terminal.

Section TerminalProperties.

Lemma prefix_cons (a b : ascii) (p s : string) :
  prefix (String a p) (String b s) = if ascii_dec a b then prefix p s else false.
Proof. reflexivity. Qed.

Lemma prefix_empty (s : string) : prefix "" s = true.
Proof. destruct s; reflexivity. Qed.

(** A line followed by a line feed is what [.+] takes. *)
Lemma line_before_line_feed (s : string) :
  line_of s = s -> line_of (s ++ nl) = s.
Proof.
  induction s as [|c r IH]; intros H; [reflexivity|].
  simpl in H. destruct (at_line_terminator (String c r)) eqn:T; [discriminate|].
  injection H as H.
  change (String c r ++ nl) with (String c (r ++ nl)).
  cbn [line_of].
  assert (T' : at_line_terminator (String c (r ++ nl)) = false).
  { revert T. unfold at_line_terminator, chr, utf8. rewrite !prefix_cons.
    destruct r as [|x [|y r']]; cbn [append]; rewrite ?prefix_cons, ?prefix_empty;
      repeat match goal with
             | |- context [ascii_dec ?a ?b] => destruct (ascii_dec a b); try discriminate
             end;
      simpl; intros; try discriminate; try reflexivity; subst; discriminate. }
  rewrite T', (IH H). reflexivity.
Qed.

(** The text behind [text returned:] in what the dialog prints when it is
    closed with its first button. *)
Lemma text_behind_the_button (entered : string) :
  entered <> "" -> line_of entered = entered ->
  match_literal_then_line "text returned:"
    ("button returned:Отправить, text returned:" ++ entered ++ nl) = Some entered.
Proof.
  intros Hn Hl. cbn -[line_of nl].
  rewrite (line_before_line_feed entered Hl).
  destruct entered; [contradiction|reflexivity].
Qed.


(** X4: on macOS, when the dialog is answered, [osascript] prints the button and
    the text; the handler returns that text, trimmed, between quotes. *)
Theorem entered_answer_is_returned (sys : system) (a : args) (entered : string) :
  platform sys = "darwin" ->
  expects_answer a = true ->
  (forall command,
     execAsync sys command =
     ExecResolved ("button returned:Отправить, text returned:" ++ entered ++ nl)) ->
  entered <> "" ->
  line_of entered = entered ->
  wait_for_user sys a = Returns ("User Answer: " ++ quoted (trim entered)).
Proof.
  intros Hp He Hx Hn Hl.
  unfold wait_for_user. cbv zeta. rewrite Hp, He, String.eqb_refl.
  unfold darwin_answer. rewrite Hx.
  replace (match_literal_then_line "text returned:" _) with (Some entered);
    [reflexivity|].
  symmetry. cbn -[line_of nl].
  rewrite (line_before_line_feed entered Hl).
  destruct entered; [contradiction|reflexivity].
Qed.

End TerminalProperties.

(** * The scenarios of the specification, run on the sample engine *)

Import Sample.

(** A payload with no recognized field at all. *)
Lemma unrecognized_payload_gets_a_block :
  (forall r, convertToMCPResponse (VObj [("unexpected", VBool true)]) = Ok r ->
             1 <= length (content r)) /\
  (conforms (VObj [("unexpected", VBool true)]) = true ->
   exists r, convertToMCPResponse (VObj [("unexpected", VBool true)]) = Ok r).
Proof.
  apply (legacy_content_never_empty (VObj [("unexpected", VBool true)])).
  reflexivity.
Defined.

Example unrecognized_payload_content :
  convertToMCPResponse (VObj [("unexpected", VBool true)]) =
  Ok {| content := [TextBlock (VStr "Unity Status: Unknown")] |}.
Proof. reflexivity. Qed.

(** [{messages: []}] is normalised to an empty content. *)
Lemma empty_messages_give_no_block :
  exists r, convertToMCPResponse (VObj [("messages", VArr [])]) = Ok r /\
            length (content r) = 0.
Proof. eexists. split; reflexivity. Qed.

(** So does a sequence without a recognized entry. *)
Example unrecognized_entries_give_no_block :
  convertToMCPResponse
    (VObj [("messages", VArr [VObj [("type", VStr "audio"); ("content", VStr "AAAA")]])]) =
  Ok {| content := [] |}.
Proof. reflexivity. Qed.

(** Every legacy field next to a [messages] sequence is ignored. *)
Lemma legacy_fields_beside_messages_are_ignored :
  convertToMCPResponse mixed_payload =
    convertToMCPResponse
      (VObj [("messages", VArr [VObj [("type", VStr "text"); ("content", VStr "hello")]])]) /\
  (forall r, convertToMCPResponse mixed_payload = Ok r ->
             content r = [TextBlock (VStr "hello")]).
Proof.
  exact (messages_sequence_overrides_legacy_fields mixed_payload
           [VObj [("type", VStr "text"); ("content", VStr "hello")]] eq_refl).
Defined.

Example mixed_payload_content :
  convertToMCPResponse mixed_payload = Ok {| content := [TextBlock (VStr "hello")] |}.
Proof. reflexivity. Qed.

(** A [messages] field that is not a sequence does not select the
    current-shape rules: the legacy [message] beside it is emitted. *)
Lemma messages_string_takes_the_legacy_path :
  convertToMCPResponse (VObj [("messages", VStr "none"); ("message", VStr "hi")]) =
    Ok {| content := [TextBlock (VStr "hi")] |} /\
  convertToMCPResponse (VObj [("messages", VStr "none"); ("message", VStr "hi")]) <>
    convertToMCPResponse (VObj [("messages", VStr "none")]).
Proof. split; [reflexivity|discriminate]. Qed.

(** The image pairing scenario. *)
Lemma image_entry_with_caption :
  convertToMCPResponse
    (VObj [("messages",
            VArr [VObj [("type", VStr "image"); ("content", VStr "AAAA");
                        ("text", VStr "caption")]])]) =
  Ok {| content := [TextBlock (VStr "caption"); ImageBlock (VStr "AAAA") "image/png"] |}.
Proof.
  apply (proj1 (current_shape_maps_entries_in_order
                  (VObj [("messages",
                          VArr [VObj [("type", VStr "image"); ("content", VStr "AAAA");
                                      ("text", VStr "caption")]])])
                  [VObj [("type", VStr "image"); ("content", VStr "AAAA");
                         ("text", VStr "caption")]]
                  eq_refl)).
  repeat constructor.
Defined.

(** A [null] behind an image entry: the image is not returned. *)
Lemma null_entry_raises_an_error :
  convertToMCPResponse
    (VObj [("messages",
            VArr [VObj [("type", VStr "image"); ("content", VStr "AAAA")]; VNull])]) =
    Throw (CannotReadProperty OfNull "type") /\
  forall r,
    convertToMCPResponse
      (VObj [("messages",
              VArr [VObj [("type", VStr "image"); ("content", VStr "AAAA")]; VNull])]) <>
    Ok r.
Proof. split; [reflexivity|]. intros r H. discriminate H. Qed.

Example image_entry_without_text :
  convertToMCPResponse
    (VObj [("messages", VArr [VObj [("type", VStr "image"); ("content", VStr "AAAA")]])]) =
  Ok {| content := [ImageBlock (VStr "AAAA") "image/png"] |}.
Proof. reflexivity. Qed.

Example entries_keep_their_order :
  convertToMCPResponse
    (VObj [("messages",
            VArr [VObj [("type", VStr "text"); ("content", VStr "one")];
                  VObj [("type", VStr "video"); ("content", VStr "skipped")];
                  VStr "not an object";
                  VObj [("type", VStr "image"); ("content", VStr "AAAA")];
                  VObj [("type", VStr "text"); ("content", VStr "two")]])]) =
  Ok {| content := [TextBlock (VStr "one"); ImageBlock (VStr "AAAA") "image/png";
                    TextBlock (VStr "two")] |}.
Proof. reflexivity. Qed.

(** The de-duplication scenario, both ways. *)
Lemma message_and_data_scenarios :
  convertToMCPResponse (VObj [("message", VStr "X"); ("data", VStr "X")]) =
    Ok {| content := [TextBlock (VStr "X")] |} /\
  convertToMCPResponse (VObj [("message", VStr "X"); ("data", VStr "Y")]) =
    Ok {| content := [TextBlock (VStr "X"); TextBlock (VStr "Y")] |}.
Proof.
  split.
  - apply (data_equal_to_message_is_not_repeated
             (VObj [("message", VStr "X"); ("data", VStr "X")]) "X" "X");
      try reflexivity; discriminate.
  - apply (data_equal_to_message_is_not_repeated
             (VObj [("message", VStr "X"); ("data", VStr "Y")]) "X" "Y");
      try reflexivity; discriminate.
Defined.

(** The error rendering scenario. *)
Lemma errors_scenario :
  convertToMCPResponse
    (VObj [("errors", VArr [VObj [("Level", VStr "Warning"); ("Message", VStr "oops")];
                            VStr "plain string"])]) =
  Ok {| content :=
          [TextBlock (VStr ("Unity Logs:" ++ nl ++ "Warning: oops" ++ nl ++ "plain string"))] |}.
Proof.
  apply (errors_are_rendered_in_one_block
           (VObj [("errors", VArr [VObj [("Level", VStr "Warning"); ("Message", VStr "oops")];
                                   VStr "plain string"])])
           [VObj [("Level", VStr "Warning"); ("Message", VStr "oops")]; VStr "plain string"]);
    try reflexivity; discriminate.
Defined.

Example lowercase_error_fields :
  convertToMCPResponse
    (VObj [("message", VStr "Build failed");
           ("errors", VArr [VObj [("level", VStr "error"); ("message", VStr "CS0103")]])]) =
  Ok {| content := [TextBlock (VStr "Build failed");
                    TextBlock (VStr ("Unity Logs:" ++ nl ++ "error: CS0103"))] |}.
Proof. reflexivity. Qed.

(** The end-to-end scenario. *)
Lemma camera_screenshot_scenario :
  camera_screenshot
    (fun _ => Resolved (VObj [("image", VStr "<base64>")]))
    (VObj [("position", VArr [int 0; int 1; int 2]);
           ("target", VArr [int 0; int 0; int 0])]) =
  Ok {| content := [TextBlock (VStr "Unity Screenshot");
                    ImageBlock (VStr "<base64>") "image/png"] |}.
Proof.
  apply (proj2 image_is_captioned).
  - reflexivity.
  - discriminate.
  - reflexivity.
Defined.

Example camera_screenshot_request :
  request_for "/api/camera_screenshot"
    (VObj [("position", VArr [int 0; int 1; int 2]); ("target", VArr [int 0; int 0; int 0]);
           ("fov", int 60); ("width", int 1920); ("height", int 1080)])
    (Some 20000%Z) =
  {| url := "http://localhost:7777/api/camera_screenshot";
     body := Some ("{" ++ dq ++ "position" ++ dq ++ ":[0,1,2]," ++
                   dq ++ "target" ++ dq ++ ":[0,0,0]," ++
                   dq ++ "fov" ++ dq ++ ":60," ++
                   dq ++ "width" ++ dq ++ ":1920," ++
                   dq ++ "height" ++ dq ++ ":1080}");
     timeout := 20000%Z |}.
Proof. reflexivity. Qed.

(** The fallback status scenario. *)
Lemma status_scenario :
  convertToMCPResponse (VObj [("status", VStr "idle")]) =
  Ok {| content := [TextBlock (VStr "Unity Status: idle")] |}.
Proof.
  apply (proj1 (status_fallback (VObj [("status", VStr "idle")]) eq_refl
                  (conj eq_refl (conj (or_introl eq_refl) (conj eq_refl (or_introl eq_refl)))))
           "idle"); reflexivity.
Defined.

(** The failure fallback scenario: no response at all, then a response with a
    body that normalises, one with a body on which the normaliser throws,
    and one with a body that is a text. *)
Lemma refused_connection_scenario :
  exists rest,
    handleUnityRequest
      (fun _ => Rejected {| message := "connect ECONNREFUSED 127.0.0.1:7777";
                            response_data := None |})
      "/api/screenshot" VUndefined None =
    Ok {| content := connectivity_block "connect ECONNREFUSED 127.0.0.1:7777" :: rest |} /\
    rest = [].
Proof.
  exact (failed_request_returns_error_content
           (fun _ => Rejected {| message := "connect ECONNREFUSED 127.0.0.1:7777";
                                 response_data := None |})
           "/api/screenshot" VUndefined None _ eq_refl).
Defined.

Example failure_with_body :
  handleUnityRequest
    (fun _ => Rejected {| message := "Request failed with status code 500";
                          response_data := Some (VObj [("message", VStr "Compilation failed")]) |})
    "/api/execute" (VObj [("code", VStr "return 1;")]) (Some 30000%Z) =
  Ok {| content := [connectivity_block "Request failed with status code 500";
                    TextBlock (VStr "Compilation failed")] |}.
Proof. reflexivity. Qed.

(** A failure whose body is a text carries no structured body, and yet a
    second block follows the connectivity block. *)
Lemma text_body_adds_a_status_block :
  structured (VStr "Service Unavailable") = false /\
  handleUnityRequest
    (fun _ => Rejected {| message := "Request failed with status code 503";
                          response_data := Some (VStr "Service Unavailable") |})
    "/api/scene_hierarchy" (VObj [("detailed", VBool false)]) (Some 15000%Z) =
  Ok {| content := [connectivity_block "Request failed with status code 503";
                    TextBlock (VStr "Unity Status: Unknown")] |}.
Proof. split; reflexivity. Qed.

Example failure_with_malformed_body :
  handleUnityRequest
    (fun _ => Rejected {| message := "Request failed with status code 500";
                          response_data := Some (VObj [("errors", VStr "boom")]) |})
    "/api/execute" (VObj [("code", VStr "return 1;")]) (Some 30000%Z) =
  Ok {| content := [connectivity_block "Request failed with status code 500";
                    TextBlock (VStr ("Unity Error Details: {" ++ dq ++ "errors" ++ dq ++ ":" ++
                                     dq ++ "boom" ++ dq ++ "}"))] |}.
Proof. reflexivity. Qed.



Example linux_confirmation_returns_a_notice :
  wait_for_user linux
    {| request := "Press Play in the editor"; details := Some "then come back";
       expect_answer := None; answer_placeholder := None |} =
  Returns "Waiting for user confirmation...".
Proof. reflexivity. Qed.

Example darwin_answer_entered :
  wait_for_user
    (darwin (ExecResolved ("button returned:Отправить, text returned: Main scene " ++ nl)))
    question =
  Returns ("User Answer: " ++ dq ++ "Main scene" ++ dq).
Proof. reflexivity. Qed.

Example darwin_dialog_dismissed :
  wait_for_user (darwin (ExecRejected "execution error: User canceled. (-128)")) question =
  Fails "Interaction Error: User cancelled input.".
Proof. reflexivity. Qed.

(** A [null] among the messages. *)
Lemma null_message_scenario :
  convertToMCPResponse
    (VObj [("messages", VArr [VObj [("type", VStr "text"); ("content", VStr "one")]; VNull])]) =
    Throw (CannotReadProperty OfNull "type") /\
  handleUnityRequest
    (fun _ => Resolved
       (VObj [("messages", VArr [VObj [("type", VStr "text"); ("content", VStr "one")]; VNull])]))
    "/api/execute" (VObj [("code", VStr "return 1;")]) (Some 30000%Z) =
  Ok {| content :=
          [connectivity_block "Cannot read properties of null (reading 'type')"] |}.
Proof.
  exact (null_entry_is_reported_as_connection_error
           (fun _ => Resolved
              (VObj [("messages",
                      VArr [VObj [("type", VStr "text"); ("content", VStr "one")]; VNull])]))
           "/api/execute" (VObj [("code", VStr "return 1;")]) (Some 30000%Z)
           (VObj [("messages",
                   VArr [VObj [("type", VStr "text"); ("content", VStr "one")]; VNull])])
           [VObj [("type", VStr "text"); ("content", VStr "one")]] []
           eq_refl eq_refl
           (Forall_cons (P := fun e => nullish e = false)
              (VObj [("type", VStr "text"); ("content", VStr "one")])
              eq_refl (Forall_nil _))).
Defined.

(** A payload with every legacy field reaches the five blocks. *)
Lemma full_legacy_payload_scenario :
  exists r,
    convertToMCPResponse
      (VObj [("message", VStr "m"); ("data", VStr "d"); ("image", VStr "i");
             ("errors", VArr [VStr "e"]); ("status", VStr "s")]) = Ok r /\
    length (content r) = 5 /\
    length (content r) <= 5.
Proof.
  eexists. split; [reflexivity|]. split; [reflexivity|].
  apply (legacy_content_has_at_most_five_blocks
           (VObj [("message", VStr "m"); ("data", VStr "d"); ("image", VStr "i");
                  ("errors", VArr [VStr "e"]); ("status", VStr "s")]));
    reflexivity.
Defined.

(** The answer typed into the macOS dialog. *)
Lemma darwin_answer_scenario :
  wait_for_user
    (darwin (ExecResolved ("button returned:Отправить, text returned:" ++ " Main scene " ++ nl)))
    question =
  Returns ("User Answer: " ++ quoted (trim " Main scene ")).
Proof.
  apply (entered_answer_is_returned
           (darwin (ExecResolved
                      ("button returned:Отправить, text returned:" ++ " Main scene " ++ nl)))
           question " Main scene "); try reflexivity.
  discriminate.
Defined.

(** An answer left empty is reported as a cancellation: [(.+)] needs a
    character. *)
Example darwin_empty_answer :
  wait_for_user
    (darwin (ExecResolved ("button returned:Отправить, text returned:" ++ nl)))
    question =
  Fails "Interaction Error: User cancelled input.".
Proof. reflexivity. Qed.

(** * Further properties of unity.js *)

Import UnityTools.

Section MoreNormalizerFacts.
Context {E : Engine}.
Arguments field : simpl never.

(** Step (d) leaves the content as it is or pushes one text block. *)
Lemma push_errors_text (content after : list block) (errors : value) :
  push_errors content errors = Ok after ->
  exists tail, after = (content ++ tail)%list /\ Forall is_text tail /\ length tail <= 1.
Proof.
  unfold push_errors.
  destruct (if truthy errors then length_gt_zero errors else Ok false) as [[|]|];
    simpl; try discriminate.
  - destruct (call_map _ errors render_error); simpl; [|discriminate].
    intros H. injection H as <-. eexists. split; [reflexivity|].
    split; [repeat constructor|simpl; lia].
  - intros H. injection H as <-. exists []. rewrite app_nil_r.
    split; [reflexivity|]. split; [constructor|simpl; lia].
Qed.

Lemma text_blocks_are_text (p : value) :
  Forall is_text (text_blocks p) /\ length (text_blocks p) <= 2.
Proof.
  unfold text_blocks, push_data, push_message, push.
  destruct (truthy (field p "message")); destruct (_ && _); simpl;
    split; repeat constructor.
Qed.

(** The content of the legacy path: the text blocks of [message] and [data],
    the caption and the image when there is an image, and at most one more
    text block (the logs, or the status). *)
Lemma legacy_content_layout (p : value) (r : response) :
  legacy_shape p = true ->
  convertToMCPResponse p = Ok r ->
  exists tail,
    content r =
      (text_blocks p ++
       (if truthy (field p "image") then screenshot_blocks (field p "image") else []) ++
       tail)%list /\
    Forall is_text tail /\ length tail <= 1.
Proof.
  intros H. rewrite (convert_legacy_path p H).
  apply legacy_shape_inv in H as [Hn _].
  unfold convertLegacyResponse. rewrite (legacy_fields_unfold p Hn).
  destruct (push_errors _ _) as [c|] eqn:Pe; simpl; [|discriminate].
  apply push_errors_text in Pe as (tail & -> & Ht & Hl).
  assert (B : blocks_before_errors p =
              (text_blocks p ++
               (if truthy (field p "image")
                then screenshot_blocks (field p "image") else []))%list).
  { unfold blocks_before_errors, push_image, push, screenshot_blocks.
    destruct (truthy (field p "image")).
    - rewrite <- app_assoc. reflexivity.
    - rewrite app_nil_r. reflexivity. }
  destruct (Nat.eqb _ 0) eqn:L.
  - apply Nat.eqb_eq in L. apply length_zero_iff_nil in L.
    apply app_eq_nil in L as [L1 ->]. rewrite app_nil_r.
    destruct (get p "status") as [st|]; simpl; [|discriminate].
    destruct (or_else st _) as [sh|]; simpl; [|discriminate].
    destruct (to_string sh) as [text|]; simpl; [|discriminate].
    intros R. injection R as <-. simpl.
    exists [TextBlock (VStr ("Unity Status: " ++ text))].
    rewrite B in L1 |- *. unfold push. rewrite <- app_assoc.
    split; [reflexivity|]. split; [repeat constructor|simpl; lia].
  - intros R. injection R as <-. simpl. exists tail.
    rewrite B, <- app_assoc. split; [reflexivity|]. split; assumption.
Qed.

(** The loop keeps "every image is a PNG". *)
Lemma messages_loop_png (entries : list value) :
  forall content after,
    Forall (text_or_image_of "image/png") content ->
    messages_loop content entries = Ok after ->
    Forall (text_or_image_of "image/png") after.
Proof.
  induction entries as [|e rest IH]; intros content after Hc H; simpl in H.
  - injection H as <-. exact Hc.
  - destruct (push_entry content e) as [c|] eqn:Pe; simpl in H; [|discriminate].
    apply (IH c after); [|exact H].
    unfold push_entry in Pe.
    destruct (get e "type") as [ty|]; simpl in Pe; [|discriminate].
    destruct (strict_eq ty (VStr "text")).
    + destruct (get e "content"); simpl in Pe; [|discriminate].
      injection Pe as <-. unfold push. apply Forall_app. split; [exact Hc|].
      repeat constructor.
    + destruct (strict_eq ty (VStr "image")).
      * destruct (get e "text") as [t|]; simpl in Pe; [|discriminate].
        destruct (get e "content") as [d|]; simpl in Pe; [|discriminate].
        injection Pe as <-. unfold push.
        destruct (truthy t); repeat (apply Forall_app; split);
          try exact Hc; repeat constructor.
      * injection Pe as <-. exact Hc.
Qed.

Lemma convert_png (p : value) (r : response) :
  convertToMCPResponse p = Ok r ->
  Forall (text_or_image_of "image/png") (content r).
Proof.
  intros R. destruct (legacy_shape p) eqn:L.
  - destruct (legacy_content_layout p r L R) as (tail & -> & Ht & _).
    apply Forall_app. split.
    + eapply Forall_impl; [|exact (proj1 (text_blocks_are_text p))].
      intros [|]; simpl; tauto.
    + apply Forall_app. split.
      * destruct (truthy (field p "image")); repeat constructor.
      * eapply Forall_impl; [|exact Ht]. intros [|]; simpl; tauto.
  - unfold legacy_shape in L.
    destruct (nullish p) eqn:N.
    + destruct p; try discriminate N; discriminate R.
    + simpl in L. apply negb_false_iff in L.
      destruct (field p "messages") as [| | | | |entries|] eqn:M; try discriminate.
      rewrite (convert_current_path p entries M) in R.
      destruct (messages_loop [] entries) as [c|] eqn:Lp; simpl in R; [|discriminate].
      injection R as <-. simpl.
      exact (messages_loop_png entries [] c (Forall_nil _) Lp).
Qed.

(** A payload takes the legacy path, or has a [messages] sequence, or is
    [null] or [undefined]. *)
Lemma payload_cases (p : value) :
  legacy_shape p = true \/
  (exists entries, field p "messages" = VArr entries) \/
  nullish p = true.
Proof.
  unfold legacy_shape. destruct (nullish p); [right; right; reflexivity|].
  destruct (field p "messages") as [| | | | |entries|] eqn:M; simpl;
    try (left; reflexivity).
  right. left. exists entries. reflexivity.
Qed.

Lemma handle_returns
    (post : Unity.request -> settled) (endpoint : string) (data : value) (timeout : option Z) :
  exists r, handleUnityRequest post endpoint data timeout = Ok r.
Proof.
  unfold handleUnityRequest.
  destruct (attempt post endpoint data timeout) as [r|error]; [eexists; reflexivity|].
  unfold recover. destruct (truthy _); [|eexists; reflexivity].
  destruct (convertToMCPResponse _); eexists; reflexivity.
Qed.

End MoreNormalizerFacts.

Section MoreNormalizerProperties.
Context {E : Engine}.
Arguments field : simpl never.

(** X5: when the upstream answers with a legacy payload whose [errors] is a
    non-empty string instead of a list, [errors.map] is not a function: the
    normaliser throws, and [handleUnityRequest] returns the connectivity
    block alone, so that the [message], [data] and [image] of the payload are
    lost. *)
Theorem errors_given_as_text_lose_the_payload
    (post : Unity.request -> settled) (endpoint : string) (data : value)
    (timeout : option Z) (p : value) (s : string) :
  post (request_for endpoint data timeout) = Resolved p ->
  legacy_shape p = true ->
  field p "errors" = VStr s ->
  s <> "" ->
  convertToMCPResponse p = Throw (NotAFunction "unityData.errors.map") /\
  handleUnityRequest post endpoint data timeout =
  Ok {| content :=
          [connectivity_block (error_message (NotAFunction "unityData.errors.map"))] |}.
Proof.
  intros Hpost H He Hs.
  assert (T : convertToMCPResponse p = Throw (NotAFunction "unityData.errors.map")).
  { rewrite (convert_legacy_path p H). apply legacy_shape_inv in H as [Hn _].
    unfold convertLegacyResponse. rewrite (legacy_fields_unfold p Hn), He.
    unfold push_errors. simpl. apply String.eqb_neq in Hs. rewrite Hs. reflexivity. }
  split; [exact T|].
  unfold handleUnityRequest, attempt. rewrite Hpost, T. reflexivity.
Qed.

(** X6: a body that is not an object (a string, as for a reply that is not
    JSON, a number, a boolean or an array) has none of the fields: it is
    normalised to the single block [Unity Status: Unknown], and that is what
    [handleUnityRequest] returns when the upstream resolves with it. *)
Theorem body_without_fields_gives_unknown_status
    (post : Unity.request -> settled) (endpoint : string) (data : value)
    (timeout : option Z) (p : value) :
  nullish p = false ->
  (forall props, p <> VObj props) ->
  convertToMCPResponse p = Ok {| content := [status_block "Unknown"] |} /\
  (post (request_for endpoint data timeout) = Resolved p ->
   handleUnityRequest post endpoint data timeout =
   Ok {| content := [status_block "Unknown"] |}).
Proof.
  intros Hn Ho. pose proof (no_properties_unknown p Hn Ho) as C.
  split; [exact C|].
  intros Hpost. unfold handleUnityRequest, attempt. rewrite Hpost, C. reflexivity.
Qed.

(** X7: when the call fails with a body that is a non-empty text, the text
    is not shown: the content is the connectivity block followed by
    [Unity Status: Unknown]. *)
Theorem text_of_a_failure_body_is_not_shown
    (post : Unity.request -> settled) (endpoint : string) (data : value)
    (timeout : option Z) (error : failure) (text : string) :
  post (request_for endpoint data timeout) = Rejected error ->
  response_data error = Some (VStr text) ->
  text <> "" ->
  handleUnityRequest post endpoint data timeout =
  Ok {| content := [connectivity_block (message error); status_block "Unknown"] |}.
Proof.
  intros Hpost Hd Ht. unfold handleUnityRequest, attempt. rewrite Hpost.
  unfold recover. rewrite Hd.
  rewrite (no_properties_unknown (VStr text) eq_refl) by discriminate.
  simpl. apply String.eqb_neq in Ht. rewrite Ht. reflexivity.
Qed.

(** X8: every image block that the normaliser returns, and so every image
    block that [handleUnityRequest] returns, has the media type [image/png]. *)
Theorem images_are_always_png :
  (forall p r,
     convertToMCPResponse p = Ok r ->
     Forall (text_or_image_of "image/png") (content r)) /\
  (forall post endpoint data timeout r,
     handleUnityRequest post endpoint data timeout = Ok r ->
     Forall (text_or_image_of "image/png") (content r)).
Proof.
  split; [exact convert_png|].
  intros post endpoint data timeout r. unfold handleUnityRequest.
  destruct (attempt post endpoint data timeout) as [r'|error] eqn:A.
  - intros R. injection R as <-. unfold attempt in A.
    destruct (post _); [|discriminate].
    destruct (convertToMCPResponse data0) as [r0|] eqn:C; [|discriminate].
    injection A as <-. exact (convert_png _ _ C).
  - unfold recover. destruct (truthy _).
    + destruct (convertToMCPResponse _) as [r0|] eqn:C; intros R; injection R as <-;
        simpl.
      * constructor; [exact I|]. exact (convert_png _ _ C).
      * repeat constructor.
    + intros R. injection R as <-. repeat constructor.
Qed.

(** X9: in the content of a legacy payload the image block stands directly
    behind the caption [Unity Screenshot], there is one when [image] is
    present and non-empty and none otherwise, and every other block is a text
    block. *)
Theorem legacy_image_stands_behind_its_caption (p : value) (r : response) :
  legacy_shape p = true ->
  convertToMCPResponse p = Ok r ->
  exists before after,
    content r =
      (before ++
       (if truthy (field p "image") then screenshot_blocks (field p "image") else []) ++
       after)%list /\
    Forall is_text before /\ Forall is_text after.
Proof.
  intros H R. destruct (legacy_content_layout p r H R) as (tail & C & Ht & _).
  exists (text_blocks p), tail. split; [exact C|].
  split; [exact (proj1 (text_blocks_are_text p))|exact Ht].
Qed.

(** X10: [data] is compared with [message] by reference when it is an array
    or an object, so the parsed [data] is never the same as [message]: its
    block is always emitted, right behind the block of [message], even when
    the two hold the same elements. *)
Theorem data_that_is_an_object_is_never_a_duplicate (p : value) (r : response) :
  legacy_shape p = true ->
  by_reference (field p "data") = true ->
  convertToMCPResponse p = Ok r ->
  exists after,
    content r =
      (push_message [] (field p "message") ++ [TextBlock (field p "data")] ++ after)%list.
Proof.
  intros H Hd R. destruct (legacy_content_layout p r H R) as (tail & C & _).
  rewrite C. unfold text_blocks, push_data, push.
  assert (T : truthy (field p "data") &&
              negb (strict_eq (field p "data") (field p "message")) = true).
  { destruct (field p "data"); try discriminate Hd; reflexivity. }
  rewrite T. rewrite <- app_assoc. eexists. reflexivity.
Qed.

(** X11: [handleUnityRequest] returns an empty content in one case only: the
    upstream resolved with a payload whose [messages] is a sequence in which
    no entry gives a block. *)
Theorem empty_content_comes_from_unrecognized_messages
    (post : Unity.request -> settled) (endpoint : string) (data : value)
    (timeout : option Z) (r : response) :
  handleUnityRequest post endpoint data timeout = Ok r ->
  content r = [] ->
  exists p entries,
    post (request_for endpoint data timeout) = Resolved p /\
    field p "messages" = VArr entries /\
    Forall (fun e => entry_blocks e = []) entries.
Proof.
  unfold handleUnityRequest.
  destruct (attempt post endpoint data timeout) as [r'|error] eqn:A.
  - intros R Hc. injection R as ->. unfold attempt in A.
    destruct (post _) as [p|] eqn:P; [|discriminate].
    destruct (convertToMCPResponse p) as [r0|] eqn:C; [|discriminate].
    injection A as ->.
    destruct (payload_cases p) as [L|[[entries M]|N]].
    + rewrite (convert_legacy_path p L) in C.
      apply legacy_result_nonempty in C. rewrite Hc in C. simpl in C. lia.
    + exists p, entries. split; [reflexivity|]. split; [exact M|].
      rewrite (current_content_returned p entries r M C) in Hc.
      clear - Hc. induction entries as [|e rest IH]; [constructor|].
      simpl in Hc. apply app_eq_nil in Hc as [He Hr].
      constructor; [exact He|exact (IH Hr)].
    + destruct p; try discriminate N; discriminate C.
  - unfold recover. destruct (truthy _).
    + destruct (convertToMCPResponse _); intros R; injection R as <-; discriminate.
    + intros R. injection R as <-. discriminate.
Qed.

(** X12: normalising the concatenation of two [messages] sequences gives
    the concatenation of their contents. *)
Theorem messages_concatenate (a b : list value) (ra rb : response) :
  convertToMCPResponse (VObj [("messages", VArr a)]) = Ok ra ->
  convertToMCPResponse (VObj [("messages", VArr b)]) = Ok rb ->
  convertToMCPResponse (VObj [("messages", VArr (a ++ b))]) =
  Ok {| content := (content ra ++ content rb)%list |}.
Proof.
  intros Ha Hb.
  pose proof (current_content_returned (VObj [("messages", VArr a)]) a ra eq_refl Ha) as Ca.
  pose proof (current_content_returned (VObj [("messages", VArr b)]) b rb eq_refl Hb) as Cb.
  rewrite (convert_current_path (VObj [("messages", VArr a)]) a eq_refl) in Ha.
  rewrite (convert_current_path (VObj [("messages", VArr b)]) b eq_refl) in Hb.
  destruct (messages_loop [] a) as [ca|] eqn:La; [|discriminate].
  destruct (messages_loop [] b) as [cb|] eqn:Lb; [|discriminate].
  apply messages_loop_returns in La, Lb.
  rewrite (convert_current_path (VObj [("messages", VArr (a ++ b))]) (a ++ b) eq_refl).
  rewrite (messages_loop_blocks (a ++ b)) by (apply Forall_app; split; assumption).
  simpl. rewrite flat_map_app, Ca, Cb. reflexivity.
Qed.

(** X13: the normaliser reads six properties of a payload and nothing else:
    two payloads that agree on [messages], [message], [data], [image],
    [errors] and [status] are normalised alike, whatever else they hold. *)
Theorem only_six_fields_matter (p q : value) :
  nullish p = false -> nullish q = false ->
  (forall k, In k payload_fields -> field p k = field q k) ->
  convertToMCPResponse p = convertToMCPResponse q.
Proof.
  intros Hp Hq Same.
  assert (F : forall k, In k payload_fields -> get p k = get q k).
  { intros k Hk. rewrite (get_field p k Hp), (get_field q k Hq), (Same k Hk). reflexivity. }
  unfold convertToMCPResponse, convertLegacyResponse, legacy_fields.
  rewrite !F by (simpl; tauto). reflexivity.
Qed.

(** X14: the [screenshot] tool returns for any arguments, even [null]; the
    other three tools return for any arguments object, and throw a
    [TypeError] (outside [handleUnityRequest]) when the arguments are [null]
    or [undefined]. *)
Theorem tools_return_on_an_arguments_object
    (post : Unity.request -> settled) (params : value) :
  (exists r, screenshot post params = Ok r) /\
  (nullish params = false ->
   (exists r, camera_screenshot post params = Ok r) /\
   (exists r, scene_hierarchy post params = Ok r) /\
   (exists r, execute post params = Ok r)) /\
  (nullish params = true ->
   (exists e, camera_screenshot post params = Throw e) /\
   (exists e, scene_hierarchy post params = Throw e) /\
   (exists e, execute post params = Throw e)).
Proof.
  split; [apply handle_returns|]. split.
  - intros Hn.
    unfold camera_screenshot, camera_request_body, scene_hierarchy, execute.
    rewrite !(get_field params _ Hn). unfold or_else. cbn [bind].
    destruct (truthy (field params "fov")), (truthy (field params "width")),
      (truthy (field params "height")), (truthy (field params "detailed"));
      simpl; repeat split; apply handle_returns.
  - intros Hn. destruct params; try discriminate Hn;
      repeat split; eexists; reflexivity.
Qed.


End MoreNormalizerProperties.

(** * Properties of the other terminal tools *)

Import Tools.

Section ToolFacts.

Lemma length_append (s t : string) :
  String.length (s ++ t) = String.length s + String.length t.
Proof. induction s as [|c s IH]; simpl; [reflexivity|]. rewrite IH. reflexivity. Qed.

(** A suffix can be cancelled. *)
Lemma append_same_tail (s1 s2 t : string) : s1 ++ t = s2 ++ t -> s1 = s2.
Proof.
  revert s2. induction s1 as [|c s1 IH]; intros [|d s2] H; simpl in H.
  - reflexivity.
  - apply (f_equal String.length) in H. simpl in H. rewrite length_append in H. lia.
  - apply (f_equal String.length) in H. simpl in H. rewrite length_append in H. lia.
  - injection H as -> H. rewrite (IH s2 H). reflexivity.
Qed.

Lemma split_lines_not_empty (s : string) : split_lines s <> [].
Proof.
  destruct s as [|c r]; simpl; [discriminate|].
  destruct (c =? "010")%char; [discriminate|].
  destruct (split_lines r); discriminate.
Qed.

(** A final line feed adds one empty line. *)
Lemma split_lines_final_line_feed (s : string) :
  split_lines (s ++ nl) = (split_lines s ++ [EmptyString])%list.
Proof.
  induction s as [|c r IH]; [reflexivity|].
  change (String c r ++ nl) with (String c (r ++ nl)).
  cbn [split_lines]. rewrite IH.
  destruct (c =? "010")%char; [reflexivity|].
  pose proof (split_lines_not_empty r) as N.
  destruct (split_lines r) as [|l ls]; [contradiction|reflexivity].
Qed.

End ToolFacts.

Section ToolProperties.
Context {E : Engine} {A : Arithmetic}.

(** X16: when [lsof] fails for a port (as it does when it exits with a
    status other than 0), [check_port] fails with a [Port Check Error], while
    the [checkPort] of [system_info] reports the same port as [CLOSED]. *)
Theorem failed_lsof_is_an_error_or_a_closed_port
    (m : machine) (a : port_args) (z : Z) (message : string) :
  num_to_string (port a) = decimal z ->
  Tools.execAsync m ("lsof -i :" ++ decimal z) = Crashed message ->
  check_port m a =
    Fails ("Port Check Error (Port: " ++ decimal z ++ "): " ++ message) /\
  checkPort m z = "CLOSED".
Proof.
  intros Hp Hx. unfold check_port, checkPort, run. rewrite Hp, Hx. split; reflexivity.
Qed.

(** X17: the [protocol] of [check_port] is printed and nothing more: for a
    machine and a port, either the call fails with one message for every
    protocol, or it returns for every protocol a report that differs in the
    [Protocol:] line only ([TCP] when the protocol is left out), with one
    status and one list of details. *)
Theorem protocol_is_printed_but_not_checked (m : machine) (n : num) :
  (exists message,
     forall protocol,
       check_port m {| port := n; protocol_of := protocol |} = Fails message) \/
  (exists status,
     forall protocol,
       check_port m {| port := n; protocol_of := protocol |} =
       Returns ("Port Check Result:" ++ nl ++
                "Port: " ++ num_to_string n ++ nl ++
                "Protocol: " ++
                upper (match protocol with Some p => p | None => tcp end) ++ nl ++
                status)).
Proof.
  unfold check_port, run. cbn [port protocol_of].
  destruct (Tools.execAsync m ("lsof -i :" ++ num_to_string n)) as [output|message].
  - right.
    exists ("Status: " ++
            (if negb (trim (stdout output) =? "") then "ACTIVE" else "CLOSED") ++ nl ++
            (if negb (trim (stdout output) =? "")
             then nl ++ "Details:" ++ nl ++ trim (stdout output) else "")).
    intros protocol. reflexivity.
  - left. exists ("Port Check Error (Port: " ++ num_to_string n ++ "): " ++ message).
    intros protocol. reflexivity.
Qed.

(** X18: [find_process] never returns an empty report: what it returns is
    the heading followed by the trimmed, non-empty output of the search.
    When the search prints nothing but white space it fails with
    [Process Search Error: No processes found matching name: NAME], and when
    the command fails it fails with the message of the command behind the
    same prefix. *)
Theorem find_process_reports_a_match_or_fails (m : machine) (name : string) :
  (forall text,
     find_process m name = Returns text ->
     exists output,
       Tools.execAsync m ("ps aux | grep -i " ++ quoted name ++ " | grep -v grep") =
         Exited output /\
       trim (stdout output) <> "" /\
       text = "Process Search Result (" ++ name ++ "):" ++ nl ++ nl ++ trim (stdout output)) /\
  (forall output,
     Tools.execAsync m ("ps aux | grep -i " ++ quoted name ++ " | grep -v grep") =
       Exited output ->
     trim (stdout output) = "" ->
     find_process m name =
     Fails ("Process Search Error: No processes found matching name: " ++ name)) /\
  (forall message,
     Tools.execAsync m ("ps aux | grep -i " ++ quoted name ++ " | grep -v grep") =
       Crashed message ->
     find_process m name = Fails ("Process Search Error: " ++ message)).
Proof.
  unfold find_process, run. split; [|split].
  - intros text. destruct (Tools.execAsync m _) as [output|message]; simpl.
    + destruct (trim (stdout output) =? "") eqn:T; simpl; [discriminate|].
      intros H. injection H as <-. exists output.
      split; [reflexivity|]. split; [|reflexivity]. apply String.eqb_neq. exact T.
    + discriminate.
  - intros output Hx Ht. rewrite Hx, Ht. reflexivity.
  - intros message Hx. rewrite Hx. reflexivity.
Qed.

(** X19: [safe_curl] fails in one case only, when the [curl] command itself
    fails, and then with the message of the command behind
    [HTTP Request Error (METHOD URL): ]; whatever [curl] prints, on the
    standard output or on the standard error, is returned. An empty [data]
    is no [data]: the command has no [-d] option and the response no
    [Data:] line. *)
Theorem safe_curl_fails_only_when_curl_fails (m : machine) (a : curl_args) :
  (forall message,
     safe_curl m a = Fails message ->
     exists reason,
       Tools.execAsync m
         (curl_command (url a) (match method a with Some x => x | None => "GET" end)
            (data a)) = Crashed reason /\
       message =
         "HTTP Request Error (" ++ match method a with Some x => x | None => "GET" end ++
         " " ++ url a ++ "): " ++ reason) /\
  (forall output,
     Tools.execAsync m
       (curl_command (url a) (match method a with Some x => x | None => "GET" end)
          (data a)) = Exited output ->
     exists text, safe_curl m a = Returns text) /\
  safe_curl m {| url := url a; method := method a; data := Some "" |} =
  safe_curl m {| url := url a; method := method a; data := None |}.
Proof.
  unfold safe_curl. split; [|split].
  - intros message. simpl.
    destruct (Tools.execAsync m _) as [output|reason]; simpl; [discriminate|].
    intros H. injection H as <-. exists reason. split; reflexivity.
  - intros output H. rewrite H. eexists. reflexivity.
  - reflexivity.
Qed.

(** X20: [system_info] adds the process details only when they are asked for
    and [pgrep] found a process: otherwise the report ends with the count,
    and the [ps] command plays no part. When they are asked for and [ps]
    fails, the call still returns: the report ends with a
    [Process List Error] line. *)
Theorem process_details_need_the_flag_and_a_process (m : machine) (a : info_args) :
  (include_processes a <> Some true \/ nodeProcesses m = 0 ->
   system_info m a = Returns (port_report m)) /\
  (forall message,
     include_processes a = Some true ->
     nodeProcesses m <> 0 ->
     Tools.execAsync m "ps aux | grep -i node | grep -v grep" = Crashed message ->
     system_info m a =
     Returns (port_report m ++ nl ++ "Process List Error: " ++ message ++ nl)).
Proof.
  unfold system_info. split.
  - intros [H|H].
    + destruct (include_processes a) as [[|]|]; [contradiction| |]; reflexivity.
    + rewrite H. rewrite andb_false_r. reflexivity.
  - intros message Hi Hn Hx. rewrite Hi.
    destruct (nodeProcesses m) as [|n]; [contradiction|].
    unfold process_details, run. rewrite Hx. reflexivity.
Qed.

(** X21: the count of Node.js processes in the report is the number of
    lines of the [pgrep] output that are not blank, and 0 when [pgrep]
    fails (as it does when it finds nothing). A final line feed adds no
    line. *)
Theorem node_processes_are_the_lines_that_are_not_blank (m : machine) :
  (forall message,
     Tools.execAsync m "pgrep -f node" = Crashed message -> nodeProcesses m = 0) /\
  (forall output,
     Tools.execAsync m "pgrep -f node" = Exited output ->
     nodeProcesses m = length (filter not_blank (split_lines (stdout output)))) /\
  (forall output text,
     Tools.execAsync m "pgrep -f node" = Exited output ->
     stdout output = text ++ nl ->
     nodeProcesses m = length (filter not_blank (split_lines text))).
Proof.
  unfold nodeProcesses, run, lines_of. split; [|split].
  - intros message H. rewrite H. reflexivity.
  - intros output H. rewrite H. reflexivity.
  - intros output text H Ht. rewrite H, Ht, split_lines_final_line_feed.
    rewrite filter_app, length_app. simpl. lia.
Qed.

End ToolProperties.

Section EchoAndPrompt.


(** X23: [wait_for_user] uses one helper per platform: on [darwin] only
    [execAsync], so what [spawnBackground] would do plays no part, and on
    the other platforms only [spawnBackground]. *)
Theorem wait_for_user_uses_one_helper (sys1 sys2 : system) (a : args) :
  platform sys1 = platform sys2 ->
  (platform sys1 = "darwin" ->
   (forall command, Terminal.execAsync sys1 command = Terminal.execAsync sys2 command) ->
   wait_for_user sys1 a = wait_for_user sys2 a) /\
  (platform sys1 <> "darwin" ->
   (forall command, spawnBackground sys1 command = spawnBackground sys2 command) ->
   wait_for_user sys1 a = wait_for_user sys2 a).
Proof.
  intros Hp. unfold wait_for_user. cbv zeta. rewrite <- Hp. split.
  - intros Hd Hx. rewrite Hd, String.eqb_refl.
    unfold darwin_answer, darwin_confirm. rewrite !Hx. reflexivity.
  - intros Hd Hs. apply String.eqb_neq in Hd. rewrite Hd.
    unfold fallback. rewrite <- Hp, Hs. reflexivity.
Qed.

(** X24: on macOS an answer left empty cannot be told from a dismissed
    dialog: the text behind [text returned:] is empty, the pattern [(.+)]
    does not match, and the call fails with the user-cancelled error. *)
Theorem empty_answer_is_taken_for_a_cancellation (sys : system) (a : args) :
  platform sys = "darwin" ->
  expects_answer a = true ->
  (forall command,
     Terminal.execAsync sys command =
     ExecResolved ("button returned:Отправить, text returned:" ++ nl)) ->
  wait_for_user sys a = Fails "Interaction Error: User cancelled input.".
Proof.
  intros Hp He Hx. unfold wait_for_user. cbv zeta.
  rewrite Hp, He, String.eqb_refl. unfold darwin_answer. rewrite Hx. reflexivity.
Qed.

End EchoAndPrompt.

(** * The new properties, run on the sample engine *)

Import Bench.

Lemma errors_as_text_scenario :
  convertToMCPResponse
    (VObj [("message", VStr "Build finished"); ("errors", VStr "CS0103: unknown name")]) =
    Throw (NotAFunction "unityData.errors.map") /\
  handleUnityRequest
    (answering (VObj [("message", VStr "Build finished");
                      ("errors", VStr "CS0103: unknown name")]))
    "/api/execute" (VObj [("code", VStr "Build();")]) (Some 30000%Z) =
  Ok {| content := [connectivity_block "unityData.errors.map is not a function"] |}.
Proof.
  exact (errors_given_as_text_lose_the_payload
           (answering (VObj [("message", VStr "Build finished");
                             ("errors", VStr "CS0103: unknown name")]))
           "/api/execute" (VObj [("code", VStr "Build();")]) (Some 30000%Z)
           (VObj [("message", VStr "Build finished"); ("errors", VStr "CS0103: unknown name")])
           "CS0103: unknown name" eq_refl eq_refl eq_refl
           (fun H => match H with eq_refl => I end)).
Defined.

Lemma plain_text_body_scenario :
  convertToMCPResponse (VStr "<html>502 Bad Gateway</html>") =
    Ok {| content := [status_block "Unknown"] |} /\
  (answering (VStr "<html>502 Bad Gateway</html>")
     (request_for "/api/screenshot" VUndefined None) =
     Resolved (VStr "<html>502 Bad Gateway</html>") ->
   handleUnityRequest (answering (VStr "<html>502 Bad Gateway</html>"))
     "/api/screenshot" VUndefined None =
   Ok {| content := [status_block "Unknown"] |}).
Proof.
  apply (body_without_fields_gives_unknown_status
           (answering (VStr "<html>502 Bad Gateway</html>"))
           "/api/screenshot" VUndefined None (VStr "<html>502 Bad Gateway</html>")).
  - reflexivity.
  - discriminate.
Defined.

Lemma plain_text_failure_scenario :
  handleUnityRequest (refusing (VStr "<html>502 Bad Gateway</html>"))
    "/api/screenshot" VUndefined None =
  Ok {| content := [connectivity_block "Request failed with status code 502";
                    status_block "Unknown"] |}.
Proof.
  apply (text_of_a_failure_body_is_not_shown
           (refusing (VStr "<html>502 Bad Gateway</html>"))
           "/api/screenshot" VUndefined None
           {| message := "Request failed with status code 502";
              response_data := Some (VStr "<html>502 Bad Gateway</html>") |}
           "<html>502 Bad Gateway</html>").
  - reflexivity.
  - reflexivity.
  - discriminate.
Defined.

Lemma caption_and_image_scenario :
  exists before after,
    [TextBlock (VStr "Shot taken"); TextBlock (VStr "Unity Screenshot");
     ImageBlock (VStr "AAAA") "image/png";
     TextBlock (VStr ("Unity Logs:" ++ nl ++ "Info: saved"))] =
      (before ++ screenshot_blocks (VStr "AAAA") ++ after)%list /\
    Forall is_text before /\ Forall is_text after.
Proof.
  exact (legacy_image_stands_behind_its_caption
           (VObj [("message", VStr "Shot taken"); ("image", VStr "AAAA");
                  ("errors", VArr [VObj [("message", VStr "saved")]])])
           {| content :=
                [TextBlock (VStr "Shot taken"); TextBlock (VStr "Unity Screenshot");
                 ImageBlock (VStr "AAAA") "image/png";
                 TextBlock (VStr ("Unity Logs:" ++ nl ++ "Info: saved"))] |}
           eq_refl eq_refl).
Defined.

Lemma equal_arrays_scenario :
  exists after,
    [TextBlock (VArr [VStr "x"]); TextBlock (VArr [VStr "x"])] =
    ([TextBlock (VArr [VStr "x"])] ++ [TextBlock (VArr [VStr "x"])] ++ after)%list.
Proof.
  exact (data_that_is_an_object_is_never_a_duplicate
           (VObj [("message", VArr [VStr "x"]); ("data", VArr [VStr "x"])])
           {| content := [TextBlock (VArr [VStr "x"]); TextBlock (VArr [VStr "x"])] |}
           eq_refl eq_refl eq_refl).
Defined.

Lemma empty_content_scenario :
  exists p entries,
    answering (VObj [("messages", VArr [VObj [("type", VStr "audio")]])])
      (request_for "/api/execute" (VObj [("code", VStr "Beep();")]) (Some 30000%Z)) =
      Resolved p /\
    field p "messages" = VArr entries /\
    Forall (fun e => entry_blocks e = []) entries.
Proof.
  exact (empty_content_comes_from_unrecognized_messages
           (answering (VObj [("messages", VArr [VObj [("type", VStr "audio")]])]))
           "/api/execute" (VObj [("code", VStr "Beep();")]) (Some 30000%Z)
           {| content := [] |} eq_refl eq_refl).
Defined.

Lemma two_batches_scenario :
  convertToMCPResponse
    (VObj [("messages",
            VArr ([VObj [("type", VStr "text"); ("content", VStr "one")]] ++
                  [VObj [("type", VStr "image"); ("content", VStr "AAAA")]]))]) =
  Ok {| content := ([TextBlock (VStr "one")] ++ [ImageBlock (VStr "AAAA") "image/png"])%list |}.
Proof.
  exact (messages_concatenate
           [VObj [("type", VStr "text"); ("content", VStr "one")]]
           [VObj [("type", VStr "image"); ("content", VStr "AAAA")]]
           {| content := [TextBlock (VStr "one")] |}
           {| content := [ImageBlock (VStr "AAAA") "image/png"] |}
           eq_refl eq_refl).
Defined.

Lemma unread_fields_scenario :
  convertToMCPResponse
    (VObj [("success", VBool true); ("message", VStr "Done"); ("elapsed", int 12)]) =
  convertToMCPResponse (VObj [("message", VStr "Done")]).
Proof.
  apply (only_six_fields_matter
           (VObj [("success", VBool true); ("message", VStr "Done"); ("elapsed", int 12)])
           (VObj [("message", VStr "Done")])).
  - reflexivity.
  - reflexivity.
  - intros k Hk. unfold payload_fields in Hk. simpl in Hk.
    destruct Hk as [<-|[<-|[<-|[<-|[<-|[<-|[]]]]]]]; reflexivity.
Defined.

Lemma failed_lsof_scenario :
  check_port (failing "Command failed: lsof -i :3000")
    {| port := num_of_Z 3000%Z; protocol_of := Some udp |} =
    Fails ("Port Check Error (Port: " ++ decimal 3000 ++ "): " ++
           "Command failed: lsof -i :3000") /\
  checkPort (failing "Command failed: lsof -i :3000") 3000 = "CLOSED".
Proof.
  apply (failed_lsof_is_an_error_or_a_closed_port
           (failing "Command failed: lsof -i :3000")
           {| port := num_of_Z 3000%Z; protocol_of := Some udp |} 3000%Z
           "Command failed: lsof -i :3000"); reflexivity.
Defined.


Lemma linux_ignores_osascript_scenario :
  (platform linux = "darwin" ->
   (forall command,
      Terminal.execAsync linux command = Terminal.execAsync linux_with_osascript command) ->
   wait_for_user linux question = wait_for_user linux_with_osascript question) /\
  (platform linux <> "darwin" ->
   (forall command,
      spawnBackground linux command = spawnBackground linux_with_osascript command) ->
   wait_for_user linux question = wait_for_user linux_with_osascript question).
Proof.
  exact (wait_for_user_uses_one_helper linux linux_with_osascript question eq_refl).
Defined.

Lemma empty_answer_scenario :
  wait_for_user
    (darwin (ExecResolved ("button returned:Отправить, text returned:" ++ nl)))
    question =
  Fails "Interaction Error: User cancelled input.".
Proof.
  apply (empty_answer_is_taken_for_a_cancellation
           (darwin (ExecResolved ("button returned:Отправить, text returned:" ++ nl)))
           question); reflexivity.
Defined.

Example system_info_with_details :
  system_info node_machine {| include_processes := Some true; max_processes := None |} =
  Returns (port_report node_machine ++ nl ++ "Node.js Processes Details:" ++ nl ++
           "  • PID 4242: 20MB (1.5% CPU)" ++ nl).
Proof. reflexivity. Qed.

Example find_process_scenario :
  find_process (printing ("  Unity 812 3.1 " ++ nl)) "unity" =
  Returns ("Process Search Result (unity):" ++ nl ++ nl ++ "Unity 812 3.1").
Proof. reflexivity. Qed.

Example safe_curl_scenario :
  safe_curl (printing "pong")
    {| url := "http://localhost:7777/ping"; method := Some "POST"; data := Some "x=1" |} =
  Returns ("HTTP Request (POST http://localhost:7777/ping)" ++ nl ++ "Data: x=1" ++ nl ++
           nl ++ "Response:" ++ nl ++ "pong").
Proof. reflexivity. Qed.
